(** * CIDR overlap validation of the multi-VPC template test script

    A shallow embedding of [validate_cidr_ranges] from [test-template.py]
    together with the part of CPython's [ipaddress] module (3.11) that it
    calls: [IPv4Network(cidr)] in strict mode and [IPv4Network.overlaps].

    Python values loaded from the YAML document are modelled by [pyval];
    a [dict] is an association list in insertion order (the order in which
    [items()] yields).  Exceptions are explicit: every Python expression that
    may raise returns a [result].  Text written with [print] is recorded as
    one structured [message] per [print] statement, carrying the values that
    the f-string interpolates. *)

From Stdlib Require Import ZArith List String Ascii Bool Lia.
From Stdlib Require Import Decimal DecimalString DecimalZ DecimalN.
From Stdlib Require Import Permutation.
Import ListNotations.

Set Warnings "-register-all".

Local Open Scope string_scope.
Local Open Scope Z_scope.

(** ** Python values and exceptions *)

(** The YAML loader yields scalars, sequences and mappings.  Mapping keys
    are strings (resource names and property names); of the scalars, the
    null value, booleans, integers and strings are represented. *)
Inductive pyval : Type :=
| PyNone
| PyBool (b : bool)
| PyInt (z : Z)
| PyStr (s : string)
| PyList (l : list pyval)
| PyDict (d : list (string * pyval)).

(** The exception classes that the modelled code can raise.
    [AddressValueError] and [NetmaskValueError] subclass [ValueError]. *)
Inductive exn : Type :=
| ValueError
| AddressValueError
| NetmaskValueError
| AttributeError.

(** [isinstance(e, ValueError)], as decided by [except ValueError]. *)
Definition is_ValueError (e : exn) : bool :=
  match e with
  | ValueError | AddressValueError | NetmaskValueError => true
  | AttributeError => false
  end.

Inductive result (A : Type) : Type :=
| Ok (a : A)
| Raise (e : exn).
Arguments Ok {A} a.
Arguments Raise {A} e.

Definition rbind {A B : Type} (r : result A) (k : A -> result B) : result B :=
  match r with
  | Ok a => k a
  | Raise e => Raise e
  end.

Declare Scope result_scope.
Delimit Scope result_scope with result.
Notation "x <- r ;; k" := (rbind r (fun x => k))
  (at level 61, r at next level, right associativity) : result_scope.

(** [dict.get(key)] on the association list: the entry of [key], if any. *)
Fixpoint dict_get (d : list (string * pyval)) (key : string) : option pyval :=
  match d with
  | [] => None
  | (k, v) :: rest => if String.eqb k key then Some v else dict_get rest key
  end.

(** [obj.get(key, default)].  Only a [dict] has a [get] attribute; on any
    other value the attribute lookup raises [AttributeError]. *)
Definition py_get (obj : pyval) (key : string) (default : pyval) : result pyval :=
  match obj with
  | PyDict d =>
      match dict_get d key with
      | Some v => Ok v
      | None => Ok default
      end
  | _ => Raise AttributeError
  end.

(** [obj.items()], again only defined on a [dict]. *)
Definition py_items (obj : pyval) : result (list (string * pyval)) :=
  match obj with
  | PyDict d => Ok d
  | _ => Raise AttributeError
  end.

(** Truth value of an object, as tested by [if cidr:]. *)
Definition truthy (v : pyval) : bool :=
  match v with
  | PyNone => false
  | PyBool b => b
  | PyInt z => negb (z =? 0)
  | PyStr s => negb (String.eqb s "")
  | PyList l => match l with [] => false | _ => true end
  | PyDict d => match d with [] => false | _ => true end
  end.

(** [v == 'literal']: only a string equal to the literal compares equal. *)
Definition py_eq_str (v : pyval) (lit : string) : bool :=
  match v with
  | PyStr s => String.eqb s lit
  | _ => false
  end.

(** ** Strings *)

(** [s.split(sep)] for a one-character separator. *)
Fixpoint split (sep : ascii) (s : string) : list string :=
  match s with
  | EmptyString => [EmptyString]
  | String c rest =>
      if Ascii.eqb c sep then EmptyString :: split sep rest
      else match split sep rest with
           | h :: t => String c h :: t
           | [] => [String c EmptyString]
           end
  end.

(** [sep.join(parts)]. *)
Fixpoint join (sep : string) (parts : list string) : string :=
  match parts with
  | [] => ""
  | [p] => p
  | p :: rest => p ++ sep ++ join sep rest
  end.

Definition is_digit (c : ascii) : bool :=
  let n := nat_of_ascii c in (Nat.leb 48 n && Nat.leb n 57)%bool.

Fixpoint all_digits (s : string) : bool :=
  match s with
  | EmptyString => true
  | String c rest => (is_digit c && all_digits rest)%bool
  end.

(** [s.isascii() and s.isdigit()]: non-empty and made of '0'..'9' only.
    Strings are byte strings here; every byte of a non-ASCII character is
    above 127 and so is not a digit. *)
Definition isascii_isdigit (s : string) : bool :=
  (negb (String.eqb s "") && all_digits s)%bool.

(** The interpreter's limit on the number of digits [int(str)] converts
    ([sys.int_info.default_max_str_digits]). *)
Definition int_max_str_digits : nat := 4300.

(** [int(s)] / [int(s, 10)] at the call sites, which have all checked
    [isascii_isdigit s] before: the decimal value, or [ValueError] when the
    string is longer than the digit limit. *)
Definition py_int (s : string) : result Z :=
  if Nat.ltb int_max_str_digits (String.length s) then Raise ValueError
  else match NilEmpty.uint_of_string s with
       | Some u => Ok (Z.of_N (N.of_uint u))
       | None => Raise ValueError
       end.

(** [str(z)] of an integer. *)
Definition py_str_int (z : Z) : string := NilEmpty.string_of_int (Z.to_int z).

(** ** The [ipaddress] module *)

Module ipaddress.

Definition IPV4LENGTH : Z := 32.
Definition _ALL_ONES : Z := 2 ^ IPV4LENGTH - 1.
Definition _max_prefixlen : Z := IPV4LENGTH.

(** An [IPv4Network] object: the integer of its [network_address], the
    integer of its [netmask], and [_prefixlen]. *)
Record IPv4Network : Type := mkIPv4Network {
  network_address : Z;
  netmask : Z;
  _prefixlen : Z
}.

(** [_split_optional_netmask] on a string. *)
Definition _split_optional_netmask (address : string) : result (list string) :=
  let addr := split "/" address in
  if Nat.ltb 2 (List.length addr) then Raise AddressValueError else Ok addr.

(** [_count_righthand_zero_bits]; [(~number & (number-1)).bit_length()] is
    [Z.log2 _ + 1] on a positive value and 0 on 0. *)
Definition bit_length (z : Z) : Z := if z =? 0 then 0 else Z.log2 (Z.abs z) + 1.

Definition _count_righthand_zero_bits (number bits : Z) : Z :=
  if number =? 0 then bits
  else Z.min bits (bit_length (Z.land (Z.lnot number) (number - 1))).

Definition _check_int_address (address : Z) : result unit :=
  if address <? 0 then Raise AddressValueError
  else if address >? _ALL_ONES then Raise AddressValueError
  else Ok tt.

Definition _ip_int_from_prefix (prefixlen : Z) : Z :=
  Z.lxor _ALL_ONES (Z.shiftr _ALL_ONES prefixlen).

Definition _prefix_from_ip_int (ip_int : Z) : result Z :=
  let trailing_zeroes := _count_righthand_zero_bits ip_int _max_prefixlen in
  let prefixlen := _max_prefixlen - trailing_zeroes in
  let leading_ones := Z.shiftr ip_int trailing_zeroes in
  let all_ones := Z.shiftl 1 prefixlen - 1 in
  if negb (leading_ones =? all_ones) then Raise ValueError
  else Ok prefixlen.

Definition _report_invalid_netmask {A : Type} : result A := Raise NetmaskValueError.

Definition _prefix_from_prefix_string (prefixlen_str : string) : result Z :=
  if negb (isascii_isdigit prefixlen_str) then _report_invalid_netmask
  else
    match py_int prefixlen_str with
    | Raise _ => _report_invalid_netmask
    | Ok prefixlen =>
        if negb ((0 <=? prefixlen) && (prefixlen <=? _max_prefixlen))%bool
        then _report_invalid_netmask
        else Ok prefixlen
    end.

Definition _parse_octet (octet_str : string) : result Z :=
  if String.eqb octet_str "" then Raise ValueError
  else if negb (isascii_isdigit octet_str) then Raise ValueError
  else if Nat.ltb 3 (String.length octet_str) then Raise ValueError
  else if (negb (String.eqb octet_str "0") &&
           match String.get 0 octet_str with
           | Some c => Ascii.eqb c "0"
           | None => false
           end)%bool then Raise ValueError
  else
    match py_int octet_str with
    | Raise e => Raise e
    | Ok octet_int =>
        if octet_int >? 255 then Raise ValueError else Ok octet_int
    end.

(** [map(cls._parse_octet, octets)], consumed left to right. *)
Fixpoint map_parse_octet (octets : list string) : result (list Z) :=
  match octets with
  | [] => Ok []
  | o :: rest =>
      (b <- _parse_octet o ;;
       bs <- map_parse_octet rest ;;
       Ok (b :: bs))%result
  end.

(** [int.from_bytes(bs, 'big')]. *)
Definition int_from_bytes_big (bs : list Z) : Z :=
  fold_left (fun acc b => acc * 256 + b) bs 0.

Definition _ip_int_from_string (ip_str : string) : result Z :=
  if String.eqb ip_str "" then Raise AddressValueError
  else
    let octets := split "." ip_str in
    if negb (Nat.eqb (List.length octets) 4) then Raise AddressValueError
    else
      match map_parse_octet octets with
      | Ok bs => Ok (int_from_bytes_big bs)
      | Raise _ => Raise AddressValueError
      end.

Definition _prefix_from_ip_string (ip_str : string) : result Z :=
  match _ip_int_from_string ip_str with
  | Raise _ => _report_invalid_netmask
  | Ok ip_int =>
      match _prefix_from_ip_int ip_int with
      | Ok p => Ok p
      | Raise _ =>
          let ip_int := Z.lxor ip_int _ALL_ONES in
          match _prefix_from_ip_int ip_int with
          | Ok p => Ok p
          | Raise _ => _report_invalid_netmask
          end
      end
  end.

(** The two kinds of argument [_make_netmask] receives from
    [IPv4Network.__init__]: the integer [_max_prefixlen] or the text after
    the slash. *)
Inductive mask_arg : Type :=
| MaskInt (prefixlen : Z)
| MaskStr (s : string).

(** [_make_netmask]: the pair [(netmask, prefixlen)].  The class-level
    cache only memoises this function. *)
Definition _make_netmask (arg : mask_arg) : result (Z * Z) :=
  (prefixlen <-
     match arg with
     | MaskInt prefixlen =>
         if negb ((0 <=? prefixlen) && (prefixlen <=? _max_prefixlen))%bool
         then _report_invalid_netmask
         else Ok prefixlen
     | MaskStr s =>
         match _prefix_from_prefix_string s with
         | Ok p => Ok p
         | Raise _ => _prefix_from_ip_string s
         end
     end ;;
   Ok (_ip_int_from_prefix prefixlen, prefixlen))%result.

(** [IPv4Address(addr_str)] for a string: the integer [_ip]. *)
Definition IPv4Address_of_str (addr_str : string) : result Z :=
  if existsb (Ascii.eqb "/") (list_ascii_of_string addr_str)
  then Raise AddressValueError
  else _ip_int_from_string addr_str.

(** [IPv4Address(address)] for an integer. *)
Definition IPv4Address_of_int (address : Z) : result Z :=
  (_ <- _check_int_address address ;; Ok address)%result.

(** The rest of [IPv4Network.__init__] with [strict=True], once the address
    integer and the mask argument are known. *)
Definition finish_network (ip : Z) (mask : mask_arg) : result IPv4Network :=
  (nm <- _make_netmask mask ;;
   let packed := ip in
   if negb (Z.land packed (fst nm) =? packed) then Raise ValueError
   else Ok (mkIPv4Network ip (fst nm) (snd nm)))%result.

(** [IPv4Network(text)] for a string argument. *)
Definition IPv4Network_of_str (text : string) : result IPv4Network :=
  (parts <- _split_optional_netmask text ;;
   match parts with
   | [addr; mask] =>
       ip <- IPv4Address_of_str addr ;;
       finish_network ip (MaskStr mask)
   | [addr] =>
       ip <- IPv4Address_of_str addr ;;
       finish_network ip (MaskInt _max_prefixlen)
   | _ => Raise AddressValueError
   end)%result.

(** [ipaddress.IPv4Network(address)] on a value of the document.
    - [bool] and [int] are instances of [int]: the address is the integer
      and the prefix length is 32;
    - a string is split at the slash;
    - for a list or a mapping, [str(address)] starts with a bracket or a
      brace, so the first octet is never decimal and the address is
      rejected with [AddressValueError];
    - [None] is converted to the text ["None"], which is not an address. *)
Definition IPv4Network_init (address : pyval) : result IPv4Network :=
  match address with
  | PyBool b =>
      (ip <- IPv4Address_of_int (if b then 1 else 0) ;;
       finish_network ip (MaskInt _max_prefixlen))%result
  | PyInt z =>
      (ip <- IPv4Address_of_int z ;;
       finish_network ip (MaskInt _max_prefixlen))%result
  | PyStr s => IPv4Network_of_str s
  | PyNone | PyList _ | PyDict _ => Raise AddressValueError
  end.

(** [hostmask], [broadcast_address], [__contains__] and [overlaps]. *)
Definition hostmask (self : IPv4Network) : Z :=
  Z.lxor (netmask self) _ALL_ONES.

Definition broadcast_address (self : IPv4Network) : Z :=
  Z.lor (network_address self) (hostmask self).

Definition contains (self : IPv4Network) (other_ip : Z) : bool :=
  Z.land other_ip (netmask self) =? network_address self.

Definition overlaps (self other : IPv4Network) : bool :=
  (contains other (network_address self) ||
   (contains other (broadcast_address self) ||
    (contains self (network_address other) ||
     contains self (broadcast_address other))))%bool.

(** [_string_from_ip_int] and [__str__] of a network. *)
Definition to_bytes4 (ip_int : Z) : list Z :=
  [ (ip_int / 2 ^ 24) mod 256; (ip_int / 2 ^ 16) mod 256;
    (ip_int / 2 ^ 8) mod 256; ip_int mod 256 ].

Definition _string_from_ip_int (ip_int : Z) : string :=
  join "." (map py_str_int (to_bytes4 ip_int)).

Definition IPv4Network_str (self : IPv4Network) : string :=
  _string_from_ip_int (network_address self) ++ "/" ++ py_str_int (_prefixlen self).

End ipaddress.
Import ipaddress.

(** ** The test function [validate_cidr_ranges] *)

(** One constructor per [print] statement of [validate_cidr_ranges], with
    the values its f-string interpolates. *)
Inductive message : Type :=
| MsgValidating
    (* "Validating CIDR ranges..." *)
| MsgInvalidCidr (resource_name : string) (cidr : pyval)
    (* "Invalid CIDR in {resource_name}: {cidr}" *)
| MsgOverlap (name1 : string) (net1 : IPv4Network)
             (name2 : string) (net2 : IPv4Network)
    (* "CIDR overlap between {name1} ({net1}) and {name2} ({net2})" *)
| MsgValid.
    (* "CIDR ranges are valid and non-overlapping" *)

(** What a run does, in order: lines printed, and (as instrumentation) each
    evaluation of [net1.overlaps(net2)] with the indices [i], [j] that
    [enumerate] gives the two entries. *)
Inductive event : Type :=
| Printed (m : message)
| Compared (i j : nat).

(** A computation that prints and may raise: the events so far and the
    outcome. *)
Definition run (A : Type) : Type := (list event * result A)%type.

Definition ret {A : Type} (a : A) : run A := ([], Ok a).

Definition raise {A : Type} (e : exn) : run A := ([], Raise e).

Definition bind {A B : Type} (m : run A) (k : A -> run B) : run B :=
  match m with
  | (out, Ok a) => let (out', r) := k a in ((out ++ out')%list, r)
  | (out, Raise e) => (out, Raise e)
  end.

Definition emit (ev : event) : run unit := ([ev], Ok tt).

Definition print (m : message) : run unit := emit (Printed m).

Definition lift {A : Type} (r : result A) : run A := ([], r).

Declare Scope run_scope.
Delimit Scope run_scope with run.
Notation "x <- m ;; k" := (bind m (fun x => k))
  (at level 61, m at next level, right associativity) : run_scope.
Notation "m ;;; k" := (bind m (fun _ => k))
  (at level 61, right associativity) : run_scope.

(** A loop body either falls through to the next iteration or executes
    [return b]. *)
Inductive flow (A : Type) : Type :=
| Continue (a : A)
| Return (b : bool).
Arguments Continue {A} a.
Arguments Return {A} b.

Definition Subnet_type : string := "AWS::EC2::Subnet".

(** The first loop: [for resource_name, resource in resources.items()],
    with [subnet_cidrs] as the accumulator. *)
Fixpoint collect_loop (items : list (string * pyval))
    (subnet_cidrs : list (string * IPv4Network))
    : run (flow (list (string * IPv4Network))) :=
  match items with
  | [] => ret (Continue subnet_cidrs)
  | (resource_name, resource) :: rest =>
      (ty <- lift (py_get resource "Type" PyNone) ;;
       if py_eq_str ty Subnet_type then
         props <- lift (py_get resource "Properties" (PyDict [])) ;;
         cidr <- lift (py_get props "CidrBlock" PyNone) ;;
         if truthy cidr then
           match IPv4Network_init cidr with
           | Ok network =>
               collect_loop rest (subnet_cidrs ++ [(resource_name, network)])%list
           | Raise e =>
               if is_ValueError e then
                 print (MsgInvalidCidr resource_name cidr) ;;;
                 ret (Return false)
               else raise e
           end
         else collect_loop rest subnet_cidrs
       else collect_loop rest subnet_cidrs)%run
  end.

(** The inner loop: [for j, (name2, net2) in enumerate(subnet_cidrs[i+1:], i+1)];
    [tail] is what remains of the slice and [j] the index of its head. *)
Fixpoint inner_loop (i : nat) (name1 : string) (net1 : IPv4Network)
    (tail : list (string * IPv4Network)) (j : nat) : run (flow unit) :=
  match tail with
  | [] => ret (Continue tt)
  | (name2, net2) :: rest =>
      (emit (Compared i j) ;;;
       if overlaps net1 net2 then
         print (MsgOverlap name1 net1 name2 net2) ;;;
         ret (Return false)
       else inner_loop i name1 net1 rest (S j))%run
  end.

(** The outer loop: [for i, (name1, net1) in enumerate(subnet_cidrs)];
    [suffix] is [subnet_cidrs[i:]], so its tail is [subnet_cidrs[i+1:]]. *)
Fixpoint outer_loop (suffix : list (string * IPv4Network)) (i : nat)
    : run (flow unit) :=
  match suffix with
  | [] => ret (Continue tt)
  | (name1, net1) :: rest =>
      (r <- inner_loop i name1 net1 rest (S i) ;;
       match r with
       | Return b => ret (Return b)
       | Continue _ => outer_loop rest (S i)
       end)%run
  end.

Definition validate_cidr_ranges (template : pyval) : run bool :=
  (print MsgValidating ;;;
   resources <- lift (py_get template "Resources" (PyDict [])) ;;
   items <- lift (py_items resources) ;;
   c <- collect_loop items [] ;;
   match c with
   | Return b => ret b
   | Continue subnet_cidrs =>
       r <- outer_loop subnet_cidrs 0%nat ;;
       match r with
       | Return b => ret b
       | Continue _ => print MsgValid ;;; ret true
       end
   end)%run.

(** Projections of a run. *)
Definition outcome {A : Type} (m : run A) : result A := snd m.

Fixpoint printed (evs : list event) : list message :=
  match evs with
  | [] => []
  | Printed m :: rest => m :: printed rest
  | Compared _ _ :: rest => printed rest
  end.

Fixpoint comparisons (evs : list event) : list (nat * nat) :=
  match evs with
  | [] => []
  | Printed _ :: rest => comparisons rest
  | Compared i j :: rest => (i, j) :: comparisons rest
  end.

(** The label pairs named by the overlap reports among the printed lines. *)
Fixpoint reported_conflicts (ms : list message) : list (string * string) :=
  match ms with
  | [] => []
  | MsgOverlap name1 _ name2 _ :: rest => (name1, name2) :: reported_conflicts rest
  | _ :: rest => reported_conflicts rest
  end.

(** ** Vocabulary of the specification *)

(** The template that the document loader hands over for a list of
    (label, CIDR string) pairs: one subnet resource per pair. *)
Definition subnet_resource (cidr : pyval) : pyval :=
  PyDict [("Type", PyStr Subnet_type);
          ("Properties", PyDict [("CidrBlock", cidr)])].

Definition template_with (resources : list (string * pyval)) : pyval :=
  PyDict [("Resources", PyDict resources)].

Definition template_of (entries : list (string * string)) : pyval :=
  template_with (map (fun e => (fst e, subnet_resource (PyStr (snd e)))) entries).

(** [entries] parse, entry by entry, to the labelled networks [nets]. *)
Definition parsed_as (entries : list (string * string))
    (nets : list (string * IPv4Network)) : Prop :=
  Forall2 (fun e n => fst n = fst e /\ IPv4Network_init (PyStr (snd e)) = Ok (snd n))
          entries nets.

(** The integer address range [start, end] of a prefix. *)
Definition range_start (n : IPv4Network) : Z := network_address n.
Definition range_end (n : IPv4Network) : Z := broadcast_address n.

Definition in_range (n : IPv4Network) (x : Z) : Prop :=
  range_start n <= x <= range_end n.

(** Number of host bits of a prefix. *)
Definition host_bits (n : IPv4Network) : Z := 32 - _prefixlen n.

(** Overlap in the sense of the glossary: the two ranges share an address. *)
Definition ranges_intersect (a b : IPv4Network) : Prop :=
  exists x, in_range a x /\ in_range b x.

(** What the constructor guarantees of a network object. *)
Record wf_network (n : IPv4Network) : Prop := {
  wf_prefix : 0 <= _prefixlen n <= 32;
  wf_netmask : netmask n = _ip_int_from_prefix (_prefixlen n);
  wf_address : 0 <= network_address n <= _ALL_ONES;
  wf_canonical : Z.land (network_address n) (netmask n) = network_address n
}.

(** All index pairs [(i, j)] with [i < j < n], by rows, written from the
    specification's "every pair exactly once (i < j)". *)
Definition pairs_from (i : nat) (n : nat) : list (nat * nat) :=
  map (fun j => (i, j)) (seq (S i) (n - S i)).

Definition ordered_pairs (n : nat) : list (nat * nat) :=
  flat_map (fun i => pairs_from i n) (seq 0 n).

(** All conflicting label pairs of a list of labelled networks, written
    from the specification's "set of conflicting pairs". *)
Fixpoint conflicts_with (name1 : string) (net1 : IPv4Network)
    (rest : list (string * IPv4Network)) : list (string * string) :=
  match rest with
  | [] => []
  | (name2, net2) :: tl =>
      if overlaps net1 net2 then (name1, name2) :: conflicts_with name1 net1 tl
      else conflicts_with name1 net1 tl
  end.

Fixpoint all_conflicts (nets : list (string * IPv4Network)) : list (string * string) :=
  match nets with
  | [] => []
  | (name1, net1) :: rest => (conflicts_with name1 net1 rest ++ all_conflicts rest)%list
  end.

(** Text of a CIDR in "a.b.c.d/n" form from its five decimal numbers. *)
Definition address_text (a b c d : Z) : string :=
  join "." (map py_str_int [a; b; c; d]).

Definition cidr_text (a b c d n : Z) : string :=
  (address_text a b c d ++ "/" ++ py_str_int n)%string.

(** The address integer that the four octets denote. *)
Definition ip_of_octets (a b c d : Z) : Z := int_from_bytes_big [a; b; c; d].

(** The pairs of row [i] and below, for a list whose part from index [i]
    on has [len] entries. *)
Fixpoint rows (i len : nat) : list (nat * nat) :=
  match len with
  | O => []
  | S len' => (map (pair i) (seq (S i) len') ++ rows (S i) len')%list
  end.

(** The elements of a list up to and including the first that satisfies
    [p] (all of them when none does). *)
Fixpoint take_through {A : Type} (p : A -> bool) (l : list A) : list A :=
  match l with
  | [] => []
  | x :: rest => if p x then [x] else x :: take_through p rest
  end.

(** Whether the entries at two indices overlap. *)
Definition overlaps_at (nets : list (string * IPv4Network)) (ij : nat * nat) : bool :=
  match nth_error nets (fst ij), nth_error nets (snd ij) with
  | Some a, Some b => overlaps (snd a) (snd b)
  | _, _ => false
  end.

(** A string that does not contain the character [c]. *)
Definition no_char (c : ascii) (s : string) : bool :=
  negb (existsb (Ascii.eqb c) (list_ascii_of_string s)).

(** Malformed "a.b.c.d/n" input, in the three ways the specification
    lists: an octet out of range, a prefix length outside [0, 32], or host
    bits set beyond the prefix length. *)
Definition octet_ok (x : Z) : Prop := 0 <= x <= 255.

Definition host_bits_set (a b c d n : Z) : Prop :=
  Z.land (ip_of_octets a b c d) (Z.ones (32 - n)) <> 0.

Definition malformed (a b c d n : Z) : Prop :=
  ~ (octet_ok a /\ octet_ok b /\ octet_ok c /\ octet_ok d) \/
  ~ (0 <= n <= 32) \/
  host_bits_set a b c d n.

(** A resource that the overlap validation takes into account: a mapping
    whose [Type] is exactly 'AWS::EC2::Subnet' and whose [Properties] hold
    a [CidrBlock] that counts as true. *)
Definition considered (resource : pyval) : bool :=
  match resource with
  | PyDict d =>
      match dict_get d "Type", dict_get d "Properties" with
      | Some ty, Some (PyDict p) =>
          (py_eq_str ty Subnet_type &&
           match dict_get p "CidrBlock" with
           | Some cidr => truthy cidr
           | None => false
           end)%bool
      | _, _ => false
      end
  | _ => false
  end.

(** The shape of a resource of the template: a mapping whose [Properties],
    when present, are a mapping too. *)
Definition resource_shaped (resource : pyval) : bool :=
  match resource with
  | PyDict d =>
      match dict_get d "Properties" with
      | Some (PyDict _) | None => true
      | Some _ => false
      end
  | _ => false
  end.

(** A VPC resource with its own address block. *)
Definition vpc_resource (cidr : pyval) : pyval :=
  PyDict [("Type", PyStr "AWS::EC2::VPC");
          ("Properties", PyDict [("CidrBlock", cidr)])].

(** Sample inputs: two adjacent /26 blocks, and three nested blocks. *)
Definition adjacent_entries : list (string * string) :=
  [("S1", "10.0.0.0/26"); ("S2", "10.0.0.64/26")].

Definition adjacent_nets : list (string * IPv4Network) :=
  [("S1", mkIPv4Network 167772160 4294967232 26);
   ("S2", mkIPv4Network 167772224 4294967232 26)].

Definition nested_entries : list (string * string) :=
  [("S1", "10.0.0.0/24"); ("S2", "10.0.0.0/25"); ("S3", "10.0.0.0/26")].

Definition nested_nets : list (string * IPv4Network) :=
  [("S1", mkIPv4Network 167772160 4294967040 24);
   ("S2", mkIPv4Network 167772160 4294967168 25);
   ("S3", mkIPv4Network 167772160 4294967232 26)].

(** ** The structure tests and the test runner *)

(** The exceptions of the other tests: those of [exn], and the two that
    membership tests and subscripts on a loaded value can raise. *)
Inductive exception : Type :=
| Exn (e : exn)
| TypeError
| KeyError.

Inductive res (A : Type) : Type :=
| Done (a : A)
| Failed (e : exception).
Arguments Done {A} a.
Arguments Failed {A} e.

Definition of_result {A : Type} (r : result A) : res A :=
  match r with
  | Ok a => Done a
  | Raise e => Failed (Exn e)
  end.

(** [sub in s] on strings. *)
Fixpoint is_substring (sub s : string) : bool :=
  (String.prefix sub s ||
   match s with
   | EmptyString => false
   | String _ rest => is_substring sub rest
   end)%bool.

(** [key in obj] for a string [key]: key membership on a mapping, element
    membership on a sequence, substring test on a string; the null value
    and numbers are not iterable. *)
Definition py_in (key : string) (obj : pyval) : res bool :=
  match obj with
  | PyDict d => Done (match dict_get d key with Some _ => true | None => false end)
  | PyList l => Done (existsb (fun v => py_eq_str v key) l)
  | PyStr s => Done (is_substring key s)
  | PyNone | PyBool _ | PyInt _ => Failed TypeError
  end.

(** [obj[key]] for a string [key]: only a mapping can be subscripted by a
    string. *)
Definition py_getitem (obj : pyval) (key : string) : res pyval :=
  match obj with
  | PyDict d =>
      match dict_get d key with
      | Some v => Done v
      | None => Failed KeyError
      end
  | _ => Failed TypeError
  end.

(** The elements that [for x in obj] yields: the items of a sequence, the
    keys of a mapping, the characters of a string (each a string). *)
Definition py_iter (obj : pyval) : res (list pyval) :=
  match obj with
  | PyList l => Done l
  | PyDict d => Done (map (fun kv => PyStr (fst kv)) d)
  | PyStr s => Done (map (fun c => PyStr (String c EmptyString)) (list_ascii_of_string s))
  | PyNone | PyBool _ | PyInt _ => Failed TypeError
  end.

(** One constructor per [print] statement of the nine structure tests. *)
Inductive report : Type :=
| RStructureStart | RMissingSection (section : string) | RStructureOk
| RVpcStart | RVpc1NotFound | RVpc1Cidr | RVpc2NotFound | RVpc2Cidr | RVpcOk
| RSubnetStart | RSubnetNotFound (subnet_name : string)
| RSubnetCidr (subnet_name : string) (actual_cidr : pyval) (expected_cidr : string)
| RSubnetOk
| RTgwStart | RTgwNotFound | RAttachmentNotFound (attachment : string)
| RRouteNotFound (route : string) | RTgwOk
| REndpointStart | REndpointNotFound (endpoint : string)
| REndpointType (endpoint : string) | REndpointOk
| RSgStart | RSgNotFound (sg : string) | RVpc1Icmp | RVpc2Icmp | RSgOk
| REc2Start | RInstanceNotFound (instance : string)
| RInstanceType (instance : string) | RRoleNotFound | RProfileNotFound | REc2Ok
| RNetStart | RIgwNotFound (igw : string) | RNatNotFound (nat : string)
| RRtNotFound (rt : string) | RNetOk
| ROutputsStart | ROutputNotFound (output : string) | ROutputsOk.

(** A test: the lines it prints and its outcome. *)
Definition test (A : Type) : Type := (list report * res A)%type.

Definition tret {A : Type} (a : A) : test A := ([], Done a).

Definition tbind {A B : Type} (m : test A) (k : A -> test B) : test B :=
  match m with
  | (out, Done a) => let (out', r) := k a in ((out ++ out')%list, r)
  | (out, Failed e) => (out, Failed e)
  end.

Definition say (m : report) : test unit := ([m], Done tt).

Definition tlift {A : Type} (r : res A) : test A := ([], r).

Declare Scope test_scope.
Delimit Scope test_scope with test.
Notation "x <- m ;; k" := (tbind m (fun x => k))
  (at level 61, m at next level, right associativity) : test_scope.
Notation "m ;;; k" := (tbind m (fun _ => k))
  (at level 61, right associativity) : test_scope.

(** [template.get(section, {})]. *)
Definition get_section (template : pyval) (section : string) : test pyval :=
  tlift (of_result (py_get template section (PyDict []))).

(** The loop
    [for name in names: if name not in container: print(...); return False],
    as it occurs in seven of the tests; [missing] is its [print]. *)
Fixpoint require_loop (names : list string) (container : pyval)
    (missing : string -> report) : test (flow unit) :=
  match names with
  | [] => tret (Continue tt)
  | name :: rest =>
      (present <- tlift (py_in name container) ;;
       if negb present then say (missing name) ;;; tret (Return false)
       else require_loop rest container missing)%test
  end.

(** The loop of [test_vpc_endpoints] and of [test_ec2_instances]: presence,
    then [resources[name].get('Type') != type_name]. *)
Fixpoint require_typed_loop (names : list string) (resources : pyval)
    (type_name : string) (missing wrong_type : string -> report)
    : test (flow unit) :=
  match names with
  | [] => tret (Continue tt)
  | name :: rest =>
      (present <- tlift (py_in name resources) ;;
       if negb present then say (missing name) ;;; tret (Return false)
       else
         resource <- tlift (py_getitem resources name) ;;
         ty <- tlift (of_result (py_get resource "Type" PyNone)) ;;
         if negb (py_eq_str ty type_name) then
           say (wrong_type name) ;;; tret (Return false)
         else require_typed_loop rest resources type_name missing wrong_type)%test
  end.

Definition finish (r : flow unit) (rest : test bool) : test bool :=
  match r with
  | Return b => tret b
  | Continue _ => rest
  end.

Definition required_sections : list string :=
  ["AWSTemplateFormatVersion"; "Description"; "Parameters"; "Resources"; "Outputs"].

Definition test_template_structure (template : pyval) : test bool :=
  (say RStructureStart ;;;
   r <- require_loop required_sections template RMissingSection ;;
   finish r (say RStructureOk ;;; tret true))%test.

Definition test_vpc_configuration (template : pyval) : test bool :=
  (say RVpcStart ;;;
   resources <- get_section template "Resources" ;;
   has1 <- tlift (py_in "VPC1" resources) ;;
   if negb has1 then say RVpc1NotFound ;;; tret false
   else
     vpc1 <- tlift (py_getitem resources "VPC1") ;;
     props1 <- tlift (of_result (py_get vpc1 "Properties" (PyDict []))) ;;
     cidr1 <- tlift (of_result (py_get props1 "CidrBlock" PyNone)) ;;
     if negb (py_eq_str cidr1 "10.0.0.0/22") then say RVpc1Cidr ;;; tret false
     else
       has2 <- tlift (py_in "VPC2" resources) ;;
       if negb has2 then say RVpc2NotFound ;;; tret false
       else
         vpc2 <- tlift (py_getitem resources "VPC2") ;;
         props2 <- tlift (of_result (py_get vpc2 "Properties" (PyDict []))) ;;
         cidr2 <- tlift (of_result (py_get props2 "CidrBlock" PyNone)) ;;
         if negb (py_eq_str cidr2 "10.0.4.0/22") then say RVpc2Cidr ;;; tret false
         else say RVpcOk ;;; tret true)%test.

(** [expected_subnets], in insertion order. *)
Definition expected_subnets : list (string * list (string * string)) :=
  [("VPC1", [("VPC1PublicSubnet1", "10.0.0.0/26");
             ("VPC1PublicSubnet2", "10.0.0.64/26");
             ("VPC1PrivateSubnet1", "10.0.1.0/26");
             ("VPC1PrivateSubnet2", "10.0.1.64/26");
             ("VPC1TGWSubnet1", "10.0.2.0/26");
             ("VPC1TGWSubnet2", "10.0.2.64/26")]);
   ("VPC2", [("VPC2PublicSubnet1", "10.0.4.0/26");
             ("VPC2PublicSubnet2", "10.0.4.64/26");
             ("VPC2PrivateSubnet1", "10.0.5.0/26");
             ("VPC2PrivateSubnet2", "10.0.5.64/26");
             ("VPC2TGWSubnet1", "10.0.6.0/26");
             ("VPC2TGWSubnet2", "10.0.6.64/26")])].

(** [for subnet_name, expected_cidr in subnets.items()]. *)
Fixpoint subnet_loop (subnets : list (string * string)) (resources : pyval)
    : test (flow unit) :=
  match subnets with
  | [] => tret (Continue tt)
  | (subnet_name, expected_cidr) :: rest =>
      (present <- tlift (py_in subnet_name resources) ;;
       if negb present then say (RSubnetNotFound subnet_name) ;;; tret (Return false)
       else
         resource <- tlift (py_getitem resources subnet_name) ;;
         props <- tlift (of_result (py_get resource "Properties" (PyDict []))) ;;
         actual_cidr <- tlift (of_result (py_get props "CidrBlock" PyNone)) ;;
         if negb (py_eq_str actual_cidr expected_cidr) then
           say (RSubnetCidr subnet_name actual_cidr expected_cidr) ;;;
           tret (Return false)
         else subnet_loop rest resources)%test
  end.

(** [for vpc, subnets in expected_subnets.items()]. *)
Fixpoint vpc_loop (vpcs : list (string * list (string * string)))
    (resources : pyval) : test (flow unit) :=
  match vpcs with
  | [] => tret (Continue tt)
  | (_, subnets) :: rest =>
      (r <- subnet_loop subnets resources ;;
       match r with
       | Return b => tret (Return b)
       | Continue _ => vpc_loop rest resources
       end)%test
  end.

Definition test_subnet_configuration (template : pyval) : test bool :=
  (say RSubnetStart ;;;
   resources <- get_section template "Resources" ;;
   r <- vpc_loop expected_subnets resources ;;
   finish r (say RSubnetOk ;;; tret true))%test.

Definition required_attachments : list string :=
  ["TGWAttachmentVPC1"; "TGWAttachmentVPC2"].

Definition required_routes : list string :=
  ["VPC1ToVPC2Route1"; "VPC1ToVPC2Route2"; "VPC2ToVPC1Route1"; "VPC2ToVPC1Route2"].

Definition test_transit_gateway (template : pyval) : test bool :=
  (say RTgwStart ;;;
   resources <- get_section template "Resources" ;;
   has <- tlift (py_in "TransitGateway" resources) ;;
   if negb has then say RTgwNotFound ;;; tret false
   else
     r1 <- require_loop required_attachments resources RAttachmentNotFound ;;
     finish r1
       (r2 <- require_loop required_routes resources RRouteNotFound ;;
        finish r2 (say RTgwOk ;;; tret true)))%test.

Definition required_endpoints : list string :=
  ["VPC1SSMEndpoint"; "VPC1SSMMessagesEndpoint"; "VPC1EC2MessagesEndpoint";
   "VPC2SSMEndpoint"; "VPC2SSMMessagesEndpoint"; "VPC2EC2MessagesEndpoint"].

Definition test_vpc_endpoints (template : pyval) : test bool :=
  (say REndpointStart ;;;
   resources <- get_section template "Resources" ;;
   r <- require_typed_loop required_endpoints resources "AWS::EC2::VPCEndpoint"
          REndpointNotFound REndpointType ;;
   finish r (say REndpointOk ;;; tret true))%test.

Definition required_sgs : list string :=
  ["VPC1EndpointSecurityGroup"; "VPC2EndpointSecurityGroup";
   "VPC1EC2SecurityGroup"; "VPC2EC2SecurityGroup"].

(** [any(rule.get('IpProtocol') == 'icmp' for rule in rules)]: stops at the
    first rule that matches, raises at a rule without [get] met before. *)
Fixpoint any_icmp (rules : list pyval) : res bool :=
  match rules with
  | [] => Done false
  | rule :: rest =>
      match py_get rule "IpProtocol" PyNone with
      | Raise e => Failed (Exn e)
      | Ok proto => if py_eq_str proto "icmp" then Done true else any_icmp rest
      end
  end.

(** The ICMP check of one security group:
    [sg = resources.get(name, {})], its ingress rules, and [any(...)]. *)
Definition has_icmp (resources : pyval) (name : string) : test bool :=
  (sg <- tlift (of_result (py_get resources name (PyDict []))) ;;
   props <- tlift (of_result (py_get sg "Properties" (PyDict []))) ;;
   ingress <- tlift (of_result (py_get props "SecurityGroupIngress" (PyList []))) ;;
   rules <- tlift (py_iter ingress) ;;
   tlift (any_icmp rules))%test.

Definition test_security_groups (template : pyval) : test bool :=
  (say RSgStart ;;;
   resources <- get_section template "Resources" ;;
   r <- require_loop required_sgs resources RSgNotFound ;;
   finish r
     (icmp1 <- has_icmp resources "VPC1EC2SecurityGroup" ;;
      if negb icmp1 then say RVpc1Icmp ;;; tret false
      else
        icmp2 <- has_icmp resources "VPC2EC2SecurityGroup" ;;
        if negb icmp2 then say RVpc2Icmp ;;; tret false
        else say RSgOk ;;; tret true))%test.

Definition required_instances : list string :=
  ["VPC1EC2Instance"; "VPC2EC2Instance"].

Definition test_ec2_instances (template : pyval) : test bool :=
  (say REc2Start ;;;
   resources <- get_section template "Resources" ;;
   r <- require_typed_loop required_instances resources "AWS::EC2::Instance"
          RInstanceNotFound RInstanceType ;;
   finish r
     (has_role <- tlift (py_in "EC2SSMRole" resources) ;;
      if negb has_role then say RRoleNotFound ;;; tret false
      else
        has_profile <- tlift (py_in "EC2InstanceProfile" resources) ;;
        if negb has_profile then say RProfileNotFound ;;; tret false
        else say REc2Ok ;;; tret true))%test.

Definition required_igws : list string :=
  ["VPC1InternetGateway"; "VPC2InternetGateway"].

Definition required_nats : list string :=
  ["VPC1NatGateway1"; "VPC1NatGateway2"; "VPC2NatGateway1"; "VPC2NatGateway2"].

Definition required_rts : list string :=
  ["VPC1PublicRouteTable"; "VPC1PrivateRouteTable1"; "VPC1PrivateRouteTable2";
   "VPC2PublicRouteTable"; "VPC2PrivateRouteTable1"; "VPC2PrivateRouteTable2"].

Definition test_networking_components (template : pyval) : test bool :=
  (say RNetStart ;;;
   resources <- get_section template "Resources" ;;
   r1 <- require_loop required_igws resources RIgwNotFound ;;
   finish r1
     (r2 <- require_loop required_nats resources RNatNotFound ;;
      finish r2
        (r3 <- require_loop required_rts resources RRtNotFound ;;
         finish r3 (say RNetOk ;;; tret true))))%test.

Definition required_outputs : list string :=
  ["VPC1Id"; "VPC2Id"; "TransitGatewayId";
   "VPC1EC2InstanceId"; "VPC2EC2InstanceId";
   "VPC1EC2PrivateIP"; "VPC2EC2PrivateIP"].

Definition test_outputs (template : pyval) : test bool :=
  (say ROutputsStart ;;;
   outputs <- get_section template "Outputs" ;;
   r <- require_loop required_outputs outputs ROutputNotFound ;;
   finish r (say ROutputsOk ;;; tret true))%test.

(** *** [run_all_tests] *)

(** The lines of a whole run: those of the runner itself, and those of the
    tests it calls. *)
Inductive line : Type :=
| Banner
    (* "=== CloudFormation Template Validation ===" *)
| TemplateLine (template_path : string)
    (* "Template: {template_path}" *)
| Blank
| Reported (m : report)
| CidrReported (m : message)
| TestError (test_name : string) (e : exception)
    (* "Test {test.__name__} failed with error: {e}" *)
| AllPassed
| SomeFailed.

(** A test as the runner sees it: its [__name__] and what calling it on
    the template prints and yields. *)
Definition test_case : Type := (string * (pyval -> list line * res bool))%type.

Definition structure_case (name : string) (t : pyval -> test bool) : test_case :=
  (name, fun template => (map Reported (fst (t template)), snd (t template))).

Definition cidr_case : test_case :=
  ("validate_cidr_ranges",
   fun template =>
     (map CidrReported (printed (fst (validate_cidr_ranges template))),
      of_result (snd (validate_cidr_ranges template)))).

Definition tests : list test_case :=
  [structure_case "test_template_structure" test_template_structure;
   structure_case "test_vpc_configuration" test_vpc_configuration;
   structure_case "test_subnet_configuration" test_subnet_configuration;
   structure_case "test_transit_gateway" test_transit_gateway;
   structure_case "test_vpc_endpoints" test_vpc_endpoints;
   structure_case "test_security_groups" test_security_groups;
   structure_case "test_ec2_instances" test_ec2_instances;
   structure_case "test_networking_components" test_networking_components;
   structure_case "test_outputs" test_outputs;
   cidr_case].

(** [for test in tests: try: ... except Exception as e: ...; print("")],
    threading [all_passed]. *)
Fixpoint tests_loop (ts : list test_case) (template : pyval) (all_passed : bool)
    : list line * bool :=
  match ts with
  | [] => ([], all_passed)
  | (name, test_fn) :: rest =>
      let (out, r) := test_fn template in
      let (out1, passed) :=
        match r with
        | Done b => (out, if negb b then false else all_passed)
        | Failed e => ((out ++ [TestError name e])%list, false)
        end in
      let (out2, final) := tests_loop rest template passed in
      ((out1 ++ Blank :: out2)%list, final)
  end.

(** [run_all_tests], from the point where [load_template] has returned the
    loaded [template]. *)
Definition run_all_tests (template_path : string) (template : pyval)
    : list line * bool :=
  let (out, all_passed) := tests_loop tests template true in
  (([Banner; TemplateLine template_path; Blank] ++ out ++
    [if all_passed then AllPassed else SomeFailed])%list,
   all_passed).

(** The status that the script passes to [sys.exit]. *)
Definition exit_status (template : pyval) : Z :=
  if snd (run_all_tests "vpc-infrastructure.yaml" template) then 0 else 1.

(** *** Vocabulary for the structure tests *)

Definition has_key (d : list (string * pyval)) (key : string) : bool :=
  match dict_get d key with
  | Some _ => true
  | None => false
  end.

(** The first of [names], in order, that is not a key of [d]. *)
Definition first_missing (d : list (string * pyval)) (names : list string)
    : option string :=
  find (fun name => negb (has_key d name)) names.

(** The entry [name] of [d] is a mapping whose [Type] is [type_name]. *)
Definition has_type (d : list (string * pyval)) (name type_name : string) : bool :=
  match dict_get d name with
  | Some (PyDict r) =>
      match dict_get r "Type" with
      | Some ty => py_eq_str ty type_name
      | None => false
      end
  | _ => false
  end.

(** The value that a resource gives for [Properties.CidrBlock] ([None]
    when a level is missing), for a resource in mapping shape. *)
Definition cidr_block (resource : pyval) : pyval :=
  match resource with
  | PyDict d =>
      match dict_get d "Properties" with
      | Some (PyDict p) =>
          match dict_get p "CidrBlock" with
          | Some cidr => cidr
          | None => PyNone
          end
      | _ => PyNone
      end
  | _ => PyNone
  end.

(** The entry [name] of [d] gives the string [cidr] for
    [Properties.CidrBlock]. *)
Definition cidr_is (d : list (string * pyval)) (name cidr : string) : bool :=
  match dict_get d name with
  | Some r => py_eq_str (cidr_block r) cidr
  | None => false
  end.

(** Every value of the mapping is a resource in mapping shape. *)
Definition resources_shaped (rs : list (string * pyval)) : Prop :=
  Forall (fun item => resource_shaped (snd item) = true) rs.

(** The labelled networks that the first loop of [validate_cidr_ranges]
    gathers from resources in mapping shape whose subnet CIDRs parse. *)
Fixpoint gathered (items : list (string * pyval)) : list (string * IPv4Network) :=
  match items with
  | [] => []
  | (name, resource) :: rest =>
      if considered resource then
        match IPv4Network_init (cidr_block resource) with
        | Ok network => (name, network) :: gathered rest
        | Raise _ => gathered rest
        end
      else gathered rest
  end.

(** The value that the security group [name] gives for
    [Properties.SecurityGroupIngress], with the defaults of the [get]
    calls when a level is missing, for resources in mapping shape. *)
Definition ingress_of (rs : list (string * pyval)) (name : string) : pyval :=
  match dict_get rs name with
  | Some (PyDict sg) =>
      match dict_get sg "Properties" with
      | Some (PyDict p) =>
          match dict_get p "SecurityGroupIngress" with
          | Some v => v
          | None => PyList []
          end
      | _ => PyList []
      end
  | _ => PyList []
  end.

(** A rule that is a mapping with [IpProtocol] 'icmp'. *)
Definition is_icmp_rule (rule : pyval) : bool :=
  match rule with
  | PyDict r =>
      match dict_get r "IpProtocol" with
      | Some v => py_eq_str v "icmp"
      | None => false
      end
  | _ => false
  end.

Definition is_mapping (v : pyval) : Prop := exists d, v = PyDict d.

(** The expected subnets of both VPCs, as one list. *)
Definition expected_list : list (string * string) :=
  flat_map snd expected_subnets.

(** A test case returns [True] on the template. *)
Definition passes (template : pyval) (tc : test_case) : bool :=
  match snd (snd tc template) with
  | Done true => true
  | _ => false
  end.

(** What the runner prints for one test case: the lines of the test, the
    error line if it raised, and the blank line. *)
Definition transcript (template : pyval) (tc : test_case) : list line :=
  (fst (snd tc template) ++
   match snd (snd tc template) with
   | Failed e => [TestError (fst tc) e]
   | Done _ => []
   end ++ [Blank])%list.



(** A template that has everything the tests look for. *)
Definition typed_resource (type_name : string) : pyval :=
  PyDict [("Type", PyStr type_name)].

Definition icmp_group : pyval :=
  PyDict [("Type", PyStr "AWS::EC2::SecurityGroup");
          ("Properties",
           PyDict [("SecurityGroupIngress",
                    PyList [PyDict [("IpProtocol", PyStr "icmp");
                                    ("CidrIp", PyStr "10.0.0.0/8")]])])].

Definition reference_resources : list (string * pyval) :=
  ([("VPC1", vpc_resource (PyStr "10.0.0.0/22"));
    ("VPC2", vpc_resource (PyStr "10.0.4.0/22"))] ++
   map (fun e => (fst e, subnet_resource (PyStr (snd e)))) expected_list ++
   [("TransitGateway", typed_resource "AWS::EC2::TransitGateway")] ++
   map (fun n => (n, typed_resource "AWS::EC2::TransitGatewayAttachment"))
       required_attachments ++
   map (fun n => (n, typed_resource "AWS::EC2::Route")) required_routes ++
   map (fun n => (n, typed_resource "AWS::EC2::VPCEndpoint")) required_endpoints ++
   [("VPC1EndpointSecurityGroup", typed_resource "AWS::EC2::SecurityGroup");
    ("VPC2EndpointSecurityGroup", typed_resource "AWS::EC2::SecurityGroup");
    ("VPC1EC2SecurityGroup", icmp_group);
    ("VPC2EC2SecurityGroup", icmp_group)] ++
   map (fun n => (n, typed_resource "AWS::EC2::Instance")) required_instances ++
   [("EC2SSMRole", typed_resource "AWS::IAM::Role");
    ("EC2InstanceProfile", typed_resource "AWS::IAM::InstanceProfile")] ++
   map (fun n => (n, typed_resource "AWS::EC2::InternetGateway")) required_igws ++
   map (fun n => (n, typed_resource "AWS::EC2::NatGateway")) required_nats ++
   map (fun n => (n, typed_resource "AWS::EC2::RouteTable")) required_rts)%list.

Definition reference_template : pyval :=
  PyDict [("AWSTemplateFormatVersion", PyStr "2010-09-09");
          ("Description", PyStr "Multi-VPC infrastructure");
          ("Parameters", PyDict []);
          ("Resources", PyDict reference_resources);
          ("Outputs", PyDict (map (fun n => (n, PyDict [])) required_outputs))].

(** ** Sample runs *)

Example parse_ex1 :
  IPv4Network_init (PyStr "10.0.0.64/26") = Ok (mkIPv4Network 167772224 4294967232 26).
Proof. reflexivity. Qed.

Example validate_ex1 :
  validate_cidr_ranges
    (template_of [("S1", "10.0.0.0/26"); ("S2", "10.0.0.64/26"); ("S3", "10.0.0.32/27")])
  = ([Printed MsgValidating; Compared 0 1; Compared 0 2;
      Printed (MsgOverlap "S1" (mkIPv4Network 167772160 4294967232 26)
                        "S3" (mkIPv4Network 167772192 4294967264 27))],
     Ok false).
Proof. vm_compute. reflexivity. Qed.

Example network_str_ex :
  IPv4Network_str (mkIPv4Network 167772224 4294967232 26) = "10.0.0.64/26".
Proof. reflexivity. Qed.

Example parse_netmask_form :
  IPv4Network_init (PyStr "10.0.0.0/255.255.255.0")
  = Ok (mkIPv4Network 167772160 4294967040 24).
Proof. vm_compute. reflexivity. Qed.

Example parse_hostmask_form :
  IPv4Network_init (PyStr "10.0.0.0/0.0.0.255")
  = Ok (mkIPv4Network 167772160 4294967040 24).
Proof. vm_compute. reflexivity. Qed.

Example parse_no_mask :
  IPv4Network_init (PyStr "10.0.0.7") = Ok (mkIPv4Network 167772167 4294967295 32).
Proof. vm_compute. reflexivity. Qed.

Example parse_leading_zero :
  IPv4Network_init (PyStr "10.0.0.01/32") = Raise AddressValueError.
Proof. vm_compute. reflexivity. Qed.

Example parse_mixed_mask :
  IPv4Network_init (PyStr "10.0.0.0/255.0.255.0") = Raise NetmaskValueError.
Proof. vm_compute. reflexivity. Qed.

Example resource_not_a_mapping :
  validate_cidr_ranges (template_with [("VPC1", PyNone)])
  = ([Printed MsgValidating], Raise AttributeError).
Proof. reflexivity. Qed.

Example invalid_cidr_run :
  validate_cidr_ranges
    (template_of [("S1", "10.0.0.0/26"); ("S2", "10.0.0.65/26"); ("S3", "10.0.0.0/26")])
  = ([Printed MsgValidating; Printed (MsgInvalidCidr "S2" (PyStr "10.0.0.65/26"))],
     Ok false).
Proof. vm_compute. reflexivity. Qed.

Example cidr_text_ex : cidr_text 10 0 0 256 33 = "10.0.0.256/33".
Proof. reflexivity. Qed.

Example ordered_pairs_ex : ordered_pairs 3 = [(0, 1); (0, 2); (1, 2)]%nat.
Proof. reflexivity. Qed.

(** * Properties *)

(** ** Arithmetic of masks *)

Lemma prefix_cases (p : Z) :
  0 <= p <= 32 -> exists n : nat, (n <= 32)%nat /\ p = Z.of_nat n.
Proof.
  intros H. exists (Z.to_nat p). split; lia.
Qed.

Ltac each_prefix p H :=
  let n := fresh "n" in
  let Hn := fresh "Hn" in
  let E := fresh "E" in
  destruct (prefix_cases p H) as (n & Hn & E); subst p;
  do 33 (destruct n as [|n]; [vm_compute; try reflexivity; auto|]);
  exfalso; lia.

Lemma netmask_value (p : Z) :
  0 <= p <= 32 -> _ip_int_from_prefix p = 2 ^ 32 - 2 ^ (32 - p).
Proof.
  intros H. each_prefix p H.
Qed.

Lemma hostmask_value (p : Z) :
  0 <= p <= 32 -> Z.lxor (_ip_int_from_prefix p) _ALL_ONES = Z.ones (32 - p).
Proof.
  intros H. each_prefix p H.
Qed.

Lemma testbit_above32 (x i : Z) :
  0 <= x < 2 ^ 32 -> 32 <= i -> Z.testbit x i = false.
Proof.
  intros Hx Hi.
  rewrite <- (Z.mod_small x (2 ^ 32)) by lia.
  apply Z.mod_pow2_bits_high. lia.
Qed.

Lemma land_high_mask (x k : Z) :
  0 <= x < 2 ^ 32 -> 0 <= k <= 32 ->
  Z.land x (2 ^ 32 - 2 ^ k) = x - x mod 2 ^ k.
Proof.
  intros Hx Hk.
  assert (Hm : 2 ^ 32 - 2 ^ k = Z.shiftl (Z.ones (32 - k)) k).
  { rewrite Z.shiftl_mul_pow2, Z.ones_equiv by lia.
    unfold Z.pred. rewrite Z.mul_add_distr_r, <- Z.pow_add_r by lia.
    replace (32 - k + k) with 32 by lia. lia. }
  assert (Hd : x - x mod 2 ^ k = Z.shiftl (Z.shiftr x k) k).
  { rewrite Z.shiftl_mul_pow2, Z.shiftr_div_pow2 by lia.
    pose proof (Z.div_mod x (2 ^ k)) as D.
    assert (2 ^ k <> 0) by (apply Z.pow_nonzero; lia).
    specialize (D H). lia. }
  rewrite Hm, Hd.
  apply Z.bits_inj'. intros i Hi.
  rewrite Z.land_spec, !Z.shiftl_spec by lia.
  destruct (Z.ltb_spec i k) as [Hlt | Hge].
  - rewrite (Z.testbit_neg_r _ (i - k)) by lia.
    rewrite (Z.testbit_neg_r _ (i - k)) by lia.
    apply andb_false_r.
  - rewrite Z.shiftr_spec by lia.
    replace (i - k + k) with i by lia.
    rewrite Z.testbit_ones_nonneg by lia.
    destruct (Z.ltb_spec (i - k) (32 - k)) as [Hin | Hout].
    + apply andb_true_r.
    + rewrite andb_false_r. symmetry. apply testbit_above32; lia.
Qed.

Lemma lor_low_ones (x k : Z) :
  0 <= k -> x mod 2 ^ k = 0 -> Z.lor x (Z.ones k) = x + 2 ^ k - 1.
Proof.
  intros Hk Hx.
  pose proof (Z.add_lor_land x (Z.ones k)) as A.
  rewrite Z.land_ones, Hx in A by lia.
  rewrite Z.ones_equiv in *. lia.
Qed.

(** ** Address ranges of well-formed networks *)

Section Ranges.

Variable n : IPv4Network.
Hypothesis Hwf : wf_network n.

Lemma host_bits_bounds : 0 <= host_bits n <= 32.
Proof. destruct Hwf. unfold host_bits. lia. Qed.

Lemma netmask_pow : netmask n = 2 ^ 32 - 2 ^ (host_bits n).
Proof.
  destruct Hwf as [Hp Hm _ _]. rewrite Hm. apply netmask_value. exact Hp.
Qed.

Lemma address_aligned : network_address n mod 2 ^ (host_bits n) = 0.
Proof.
  pose proof host_bits_bounds as Hk.
  destruct Hwf as [Hp Hm Ha Hc].
  rewrite netmask_pow in Hc.
  unfold _ALL_ONES, IPV4LENGTH in Ha.
  rewrite land_high_mask in Hc by lia. lia.
Qed.

Lemma broadcast_value : broadcast_address n = network_address n + 2 ^ (host_bits n) - 1.
Proof.
  pose proof host_bits_bounds as Hk.
  unfold broadcast_address, hostmask.
  destruct Hwf as [Hp Hm Ha Hc].
  rewrite Hm, hostmask_value by exact Hp.
  apply lor_low_ones; [lia | apply address_aligned].
Qed.

Lemma range_nonempty : range_start n <= range_end n.
Proof.
  unfold range_start, range_end. rewrite broadcast_value.
  pose proof host_bits_bounds as Hk.
  assert (0 < 2 ^ (host_bits n)) by (apply Z.pow_pos_nonneg; lia). lia.
Qed.

Lemma broadcast_bounds : 0 <= broadcast_address n <= _ALL_ONES.
Proof.
  pose proof host_bits_bounds as Hk.
  pose proof address_aligned as Hal.
  rewrite broadcast_value.
  destruct Hwf as [Hp Hm Ha Hc].
  unfold _ALL_ONES, IPV4LENGTH in *.
  assert (Hpos : 0 < 2 ^ (host_bits n)) by (apply Z.pow_pos_nonneg; lia).
  split; [lia|].
  apply Z.mod_divide in Hal; [|lia].
  destruct Hal as [m Hm'].
  assert (Hsplit : 2 ^ 32 = 2 ^ (32 - host_bits n) * 2 ^ (host_bits n)).
  { rewrite <- Z.pow_add_r by lia. f_equal. lia. }
  assert (m < 2 ^ (32 - host_bits n)) by nia.
  nia.
Qed.

Lemma contains_range (x : Z) :
  0 <= x <= _ALL_ONES -> (contains n x = true <-> in_range n x).
Proof.
  intros Hx.
  pose proof host_bits_bounds as Hk.
  pose proof address_aligned as Hal.
  unfold contains, in_range, range_start, range_end.
  rewrite broadcast_value, netmask_pow.
  unfold _ALL_ONES, IPV4LENGTH in Hx.
  rewrite land_high_mask by lia.
  rewrite Z.eqb_eq.
  assert (Hpos : 0 < 2 ^ (host_bits n)) by (apply Z.pow_pos_nonneg; lia).
  pose proof (Z.mod_pos_bound x (2 ^ (host_bits n)) Hpos) as Hr.
  split.
  - intros E. lia.
  - intros [Hlo Hhi].
    apply Z.mod_divide in Hal; [|lia].
    destruct Hal as [m Hm'].
    assert (Hxm : x mod 2 ^ (host_bits n) = x - network_address n).
    { symmetry. apply (Z.mod_unique_pos x (2 ^ (host_bits n)) m); lia. }
    lia.
Qed.

End Ranges.

Lemma overlaps_intersect (a b : IPv4Network) :
  wf_network a -> wf_network b ->
  (overlaps a b = true <-> ranges_intersect a b).
Proof.
  intros Ha Hb.
  pose proof (range_nonempty a Ha) as Na.
  pose proof (range_nonempty b Hb) as Nb.
  pose proof (wf_address a Ha) as Aa.
  pose proof (wf_address b Hb) as Ab.
  pose proof (broadcast_bounds a Ha) as Ba.
  pose proof (broadcast_bounds b Hb) as Bb.
  unfold overlaps. rewrite !orb_true_iff.
  rewrite (contains_range b Hb (network_address a) Aa).
  rewrite (contains_range b Hb (broadcast_address a) Ba).
  rewrite (contains_range a Ha (network_address b) Ab).
  rewrite (contains_range a Ha (broadcast_address b) Bb).
  unfold ranges_intersect, in_range, range_start, range_end in *.
  split.
  - intros [H | [H | [H | H]]].
    + exists (network_address a). lia.
    + exists (broadcast_address a). lia.
    + exists (network_address b). lia.
    + exists (broadcast_address b). lia.
  - intros (x & Hxa & Hxb).
    destruct (Z_le_gt_dec (network_address b) (network_address a)).
    + left. lia.
    + right. right. left. lia.
Qed.

Lemma overlaps_comm (a b : IPv4Network) : overlaps a b = overlaps b a.
Proof.
  unfold overlaps.
  destruct (contains b (network_address a)), (contains b (broadcast_address a)),
    (contains a (network_address b)), (contains a (broadcast_address b));
    reflexivity.
Qed.

Lemma ranges_intersect_comm (a b : IPv4Network) :
  ranges_intersect a b <-> ranges_intersect b a.
Proof.
  unfold ranges_intersect. split; intros (x & H1 & H2); exists x; tauto.
Qed.

Lemma overlaps_refl (a : IPv4Network) : wf_network a -> overlaps a a = true.
Proof.
  intros Ha. apply overlaps_intersect; trivial.
  exists (network_address a).
  pose proof (range_nonempty a Ha).
  unfold in_range, range_start, range_end in *. lia.
Qed.

(** ** The constructor yields well-formed networks *)

Lemma count_zero_bits_bounds (x : Z) :
  0 <= _count_righthand_zero_bits x 32 <= 32.
Proof.
  unfold _count_righthand_zero_bits, bit_length.
  destruct (x =? 0); [lia|].
  destruct (_ =? 0); [lia|].
  pose proof (Z.log2_nonneg (Z.abs (Z.land (Z.lnot x) (x - 1)))). lia.
Qed.

Lemma prefix_from_ip_int_bounds (x p : Z) :
  _prefix_from_ip_int x = Ok p -> 0 <= p <= 32.
Proof.
  unfold _prefix_from_ip_int, _max_prefixlen, IPV4LENGTH.
  pose proof (count_zero_bits_bounds x).
  destruct (negb _); intros E; [discriminate|].
  assert (32 - _count_righthand_zero_bits x 32 = p) by congruence. lia.
Qed.

Lemma prefix_from_prefix_string_bounds (s : string) (p : Z) :
  _prefix_from_prefix_string s = Ok p -> 0 <= p <= 32.
Proof.
  unfold _prefix_from_prefix_string, _report_invalid_netmask,
    _max_prefixlen, IPV4LENGTH.
  destruct (negb (isascii_isdigit s)); [discriminate|].
  destruct (py_int s) as [z|]; [|discriminate].
  destruct ((0 <=? z) && (z <=? 32))%bool eqn:E; simpl; [|discriminate].
  intros H. assert (z = p) by congruence. subst z.
  apply andb_true_iff in E. lia.
Qed.

Lemma prefix_from_ip_string_bounds (s : string) (p : Z) :
  _prefix_from_ip_string s = Ok p -> 0 <= p <= 32.
Proof.
  unfold _prefix_from_ip_string, _report_invalid_netmask.
  destruct (_ip_int_from_string s) as [ip|]; [|discriminate].
  destruct (_prefix_from_ip_int ip) as [q|] eqn:E1.
  - intros H. assert (q = p) by congruence. subst q.
    eapply prefix_from_ip_int_bounds; eassumption.
  - destruct (_prefix_from_ip_int (Z.lxor ip _ALL_ONES)) as [q|] eqn:E2;
      [|discriminate].
    intros H. assert (q = p) by congruence. subst q.
    eapply prefix_from_ip_int_bounds; eassumption.
Qed.

Lemma make_netmask_spec (arg : mask_arg) (nm : Z * Z) :
  _make_netmask arg = Ok nm ->
  0 <= snd nm <= 32 /\ fst nm = _ip_int_from_prefix (snd nm).
Proof.
  unfold _make_netmask, rbind.
  match goal with
  | |- match ?scrut with _ => _ end = _ -> _ => destruct scrut as [p|] eqn:E
  end; [|discriminate].
  intros H. assert (nm = (_ip_int_from_prefix p, p)) by congruence. subst nm.
  simpl. split; [|reflexivity].
  destruct arg as [q | s].
  - unfold _report_invalid_netmask, _max_prefixlen, IPV4LENGTH in E.
    destruct ((0 <=? q) && (q <=? 32))%bool eqn:Eq; simpl in E; [|discriminate].
    assert (q = p) by congruence. subst q.
    apply andb_true_iff in Eq. lia.
  - destruct (_prefix_from_prefix_string s) as [q|] eqn:E1.
    + assert (q = p) by congruence. subst q.
      eapply prefix_from_prefix_string_bounds; eassumption.
    + eapply prefix_from_ip_string_bounds; eassumption.
Qed.

Lemma finish_network_wf (ip : Z) (mask : mask_arg) (n : IPv4Network) :
  0 <= ip <= _ALL_ONES -> finish_network ip mask = Ok n -> wf_network n.
Proof.
  intros Hip. unfold finish_network, rbind.
  destruct (_make_netmask mask) as [nm|] eqn:E; [|discriminate].
  apply make_netmask_spec in E. destruct E as [Hp Hm].
  destruct (Z.land ip (fst nm) =? ip) eqn:Ec; simpl; [|discriminate].
  intros H. assert (n = mkIPv4Network ip (fst nm) (snd nm)) by congruence.
  subst n. apply Z.eqb_eq in Ec.
  constructor; simpl; assumption.
Qed.

Lemma py_int_nonneg (s : string) (z : Z) : py_int s = Ok z -> 0 <= z.
Proof.
  unfold py_int.
  destruct (Nat.ltb _ _); [discriminate|].
  destruct (NilEmpty.uint_of_string s); [|discriminate].
  intros H. assert (Z.of_N (N.of_uint u) = z) by congruence. lia.
Qed.

Lemma parse_octet_bounds (s : string) (z : Z) :
  _parse_octet s = Ok z -> 0 <= z <= 255.
Proof.
  unfold _parse_octet.
  destruct (String.eqb s ""); [discriminate|].
  destruct (negb (isascii_isdigit s)); [discriminate|].
  destruct (Nat.ltb 3 (String.length s)); [discriminate|].
  destruct (negb (String.eqb s "0") && _)%bool; [discriminate|].
  destruct (py_int s) as [v|] eqn:E; [|discriminate].
  apply py_int_nonneg in E.
  destruct (v >? 255) eqn:Ev; [discriminate|].
  intros H. assert (v = z) by congruence. subst v.
  rewrite Z.gtb_ltb in Ev. apply Z.ltb_ge in Ev. lia.
Qed.

Lemma map_parse_octet_bounds (octets : list string) (bs : list Z) :
  map_parse_octet octets = Ok bs ->
  List.length bs = List.length octets /\ Forall (fun b => 0 <= b <= 255) bs.
Proof.
  revert bs. induction octets as [|o rest IH]; simpl; intros bs H.
  - assert (bs = []) by congruence. subst bs. split; [reflexivity | constructor].
  - unfold rbind in H.
    destruct (_parse_octet o) as [b|] eqn:Eo; [|discriminate].
    destruct (map_parse_octet rest) as [bs'|] eqn:Er; [|discriminate].
    assert (bs = b :: bs') by congruence. subst bs.
    destruct (IH bs' eq_refl) as [Hl Hf].
    split; [simpl; congruence|].
    constructor; [eapply parse_octet_bounds; eassumption | exact Hf].
Qed.

Lemma ip_int_from_string_bounds (s : string) (ip : Z) :
  _ip_int_from_string s = Ok ip -> 0 <= ip <= _ALL_ONES.
Proof.
  unfold _ip_int_from_string.
  destruct (String.eqb s ""); [discriminate|].
  destruct (Nat.eqb (List.length (split "." s)) 4) eqn:El; simpl; [|discriminate].
  destruct (map_parse_octet (split "." s)) as [bs|] eqn:Em; [|discriminate].
  apply map_parse_octet_bounds in Em. destruct Em as [Hl Hf].
  apply Nat.eqb_eq in El. rewrite El in Hl.
  intros H. assert (int_from_bytes_big bs = ip) by congruence. subst ip.
  destruct bs as [|a [|b [|c [|d [|? ?]]]]]; try discriminate.
  inversion Hf as [|? ? Ha Hf1]; subst.
  inversion Hf1 as [|? ? Hb Hf2]; subst.
  inversion Hf2 as [|? ? Hc Hf3]; subst.
  inversion Hf3 as [|? ? Hd _]; subst.
  unfold int_from_bytes_big, _ALL_ONES, IPV4LENGTH. simpl fold_left.
  change (2 ^ 32 - 1) with 4294967295. lia.
Qed.

Lemma IPv4Network_init_wf (v : pyval) (n : IPv4Network) :
  IPv4Network_init v = Ok n -> wf_network n.
Proof.
  destruct v as [ | b | z | s | l | d]; simpl; try discriminate.
  - unfold rbind, IPv4Address_of_int, rbind.
    destruct (_check_int_address _) eqn:E; [|discriminate].
    apply finish_network_wf.
    destruct b; unfold _ALL_ONES, IPV4LENGTH; simpl; lia.
  - unfold rbind, IPv4Address_of_int, rbind.
    destruct (_check_int_address z) eqn:E; [|discriminate].
    apply finish_network_wf.
    unfold _check_int_address in E.
    destruct (z <? 0) eqn:E0; [discriminate|].
    destruct (z >? _ALL_ONES) eqn:E1; [discriminate|].
    apply Z.ltb_ge in E0. rewrite Z.gtb_ltb in E1. apply Z.ltb_ge in E1. lia.
  - unfold IPv4Network_of_str, rbind.
    destruct (_split_optional_netmask s) as [parts|]; [|discriminate].
    destruct parts as [|addr [|mask [|? ?]]]; try discriminate.
    + destruct (IPv4Address_of_str addr) as [ip|] eqn:E; [|discriminate].
      apply finish_network_wf.
      unfold IPv4Address_of_str in E.
      destruct (existsb _ _); [discriminate|].
      eapply ip_int_from_string_bounds; eassumption.
    + destruct (IPv4Address_of_str addr) as [ip|] eqn:E; [|discriminate].
      apply finish_network_wf.
      unfold IPv4Address_of_str in E.
      destruct (existsb _ _); [discriminate|].
      eapply ip_int_from_string_bounds; eassumption.
Qed.

(** ** The constructor raises nothing but [ValueError]s *)

Lemma ip_int_from_string_raises (s : string) (e : exn) :
  _ip_int_from_string s = Raise e -> e = AddressValueError.
Proof.
  unfold _ip_int_from_string. intros H.
  destruct (String.eqb s ""); [congruence|].
  destruct (negb _); [congruence|].
  destruct (map_parse_octet _); congruence.
Qed.

Lemma prefix_from_ip_string_raises (s : string) (e : exn) :
  _prefix_from_ip_string s = Raise e -> e = NetmaskValueError.
Proof.
  unfold _prefix_from_ip_string, _report_invalid_netmask. intros H.
  destruct (_ip_int_from_string s) as [ip|]; [|congruence].
  destruct (_prefix_from_ip_int ip); [congruence|].
  destruct (_prefix_from_ip_int (Z.lxor ip _ALL_ONES)); congruence.
Qed.

Lemma make_netmask_raises (arg : mask_arg) (e : exn) :
  _make_netmask arg = Raise e -> e = NetmaskValueError.
Proof.
  unfold _make_netmask, rbind, _report_invalid_netmask. intros H.
  destruct arg as [q | s].
  - destruct (negb _); congruence.
  - destruct (_prefix_from_prefix_string s); [congruence|].
    destruct (_prefix_from_ip_string s) eqn:E; [congruence|].
    apply prefix_from_ip_string_raises in E. congruence.
Qed.

Lemma finish_network_raises (ip : Z) (mask : mask_arg) (e : exn) :
  finish_network ip mask = Raise e -> is_ValueError e = true.
Proof.
  unfold finish_network, rbind. intros H.
  destruct (_make_netmask mask) as [nm|] eqn:E.
  - destruct (negb _); [|discriminate].
    assert (e = ValueError) by congruence. subst e. reflexivity.
  - apply make_netmask_raises in E.
    assert (e = NetmaskValueError) by congruence. subst e. reflexivity.
Qed.

Lemma IPv4Address_of_int_raises (z : Z) (e : exn) :
  IPv4Address_of_int z = Raise e -> e = AddressValueError.
Proof.
  unfold IPv4Address_of_int, rbind, _check_int_address. intros H.
  destruct (z <? 0); [congruence|].
  destruct (z >? _ALL_ONES); congruence.
Qed.

Lemma IPv4Address_of_str_raises (s : string) (e : exn) :
  IPv4Address_of_str s = Raise e -> e = AddressValueError.
Proof.
  unfold IPv4Address_of_str. intros H.
  destruct (existsb _ _); [congruence|].
  apply ip_int_from_string_raises in H. exact H.
Qed.

Lemma IPv4Network_init_raises (v : pyval) (e : exn) :
  IPv4Network_init v = Raise e -> is_ValueError e = true.
Proof.
  destruct v as [ | b | z | s | l | d]; simpl; intros H;
    try (assert (e = AddressValueError) by congruence; subst e; reflexivity).
  - unfold rbind in H.
    destruct (IPv4Address_of_int _) eqn:E.
    + eapply finish_network_raises; eassumption.
    + apply IPv4Address_of_int_raises in E.
      assert (e = AddressValueError) by congruence. subst e. reflexivity.
  - unfold rbind in H.
    destruct (IPv4Address_of_int _) eqn:E.
    + eapply finish_network_raises; eassumption.
    + apply IPv4Address_of_int_raises in E.
      assert (e = AddressValueError) by congruence. subst e. reflexivity.
  - unfold IPv4Network_of_str, rbind, _split_optional_netmask in H.
    destruct (Nat.ltb 2 _).
    { assert (e = AddressValueError) by congruence. subst e. reflexivity. }
    destruct (split "/" s) as [|addr [|mask [|? ?]]];
      try (assert (e = AddressValueError) by congruence; subst e; reflexivity).
    + destruct (IPv4Address_of_str addr) eqn:E.
      * eapply finish_network_raises; eassumption.
      * apply IPv4Address_of_str_raises in E.
        assert (e = AddressValueError) by congruence. subst e. reflexivity.
    + destruct (IPv4Address_of_str addr) eqn:E.
      * eapply finish_network_raises; eassumption.
      * apply IPv4Address_of_str_raises in E.
        assert (e = AddressValueError) by congruence. subst e. reflexivity.
Qed.

(** ** The two loops *)

Lemma printed_app (xs ys : list event) :
  printed (xs ++ ys) = (printed xs ++ printed ys)%list.
Proof.
  induction xs as [|[m|i j] xs IH]; simpl; congruence.
Qed.

Lemma comparisons_app (xs ys : list event) :
  comparisons (xs ++ ys) = (comparisons xs ++ comparisons ys)%list.
Proof.
  induction xs as [|[m|i j] xs IH]; simpl; congruence.
Qed.

Lemma reported_conflicts_app (xs ys : list message) :
  reported_conflicts (xs ++ ys) = (reported_conflicts xs ++ reported_conflicts ys)%list.
Proof.
  induction xs as [|[| | |] xs IH]; simpl; congruence.
Qed.

(** The inner loop, in one equation: the events are the comparisons up to
    the first overlap, followed by its report. *)
Lemma inner_loop_outcome i name1 net1 tail j :
  outcome (inner_loop i name1 net1 tail j) =
  Ok (match conflicts_with name1 net1 tail with
      | [] => Continue tt
      | _ :: _ => Return false
      end).
Proof.
  revert j. induction tail as [|[name2 net2] rest IH]; intros j; simpl.
  - reflexivity.
  - destruct (overlaps net1 net2) eqn:E; simpl.
    + reflexivity.
    + specialize (IH (S j)). unfold outcome in *.
      destruct (inner_loop i name1 net1 rest (S j)) as [out r]. simpl in *.
      exact IH.
Qed.

Lemma inner_loop_reported i name1 net1 tail j :
  reported_conflicts (printed (fst (inner_loop i name1 net1 tail j))) =
  firstn 1 (conflicts_with name1 net1 tail).
Proof.
  revert j. induction tail as [|[name2 net2] rest IH]; intros j; simpl.
  - reflexivity.
  - destruct (overlaps net1 net2) eqn:E; simpl.
    + reflexivity.
    + specialize (IH (S j)).
      destruct (inner_loop i name1 net1 rest (S j)) as [out r]. simpl in *.
      exact IH.
Qed.

Lemma outer_loop_outcome suffix i :
  outcome (outer_loop suffix i) =
  Ok (match all_conflicts suffix with
      | [] => Continue tt
      | _ :: _ => Return false
      end).
Proof.
  revert i. induction suffix as [|[name1 net1] rest IH]; intros i; simpl.
  - reflexivity.
  - pose proof (inner_loop_outcome i name1 net1 rest (S i)) as Hin.
    unfold outcome in *.
    destruct (inner_loop i name1 net1 rest (S i)) as [out r]. simpl in *.
    subst r.
    destruct (conflicts_with name1 net1 rest) as [|c cs]; simpl.
    + specialize (IH (S i)).
      destruct (outer_loop rest (S i)) as [out' r']. simpl in *. exact IH.
    + reflexivity.
Qed.

Lemma outer_loop_reported suffix i :
  reported_conflicts (printed (fst (outer_loop suffix i))) =
  firstn 1 (all_conflicts suffix).
Proof.
  revert i. induction suffix as [|[name1 net1] rest IH]; intros i; simpl.
  - reflexivity.
  - pose proof (inner_loop_outcome i name1 net1 rest (S i)) as Hout.
    pose proof (inner_loop_reported i name1 net1 rest (S i)) as Hrep.
    unfold outcome in *.
    destruct (inner_loop i name1 net1 rest (S i)) as [out r]. simpl in *.
    subst r.
    destruct (conflicts_with name1 net1 rest) as [|c cs]; simpl in *.
    + specialize (IH (S i)).
      destruct (outer_loop rest (S i)) as [out' r']. simpl in *.
      rewrite printed_app, reported_conflicts_app, Hrep, IH. reflexivity.
    + rewrite app_nil_r. exact Hrep.
Qed.

(** ** Which pairs the scan compares *)

Lemma take_through_none {A : Type} (p : A -> bool) (l : list A) :
  existsb p l = false -> take_through p l = l.
Proof.
  induction l as [|x l IH]; simpl; [reflexivity|].
  destruct (p x); simpl; [discriminate|].
  intros H. rewrite IH by exact H. reflexivity.
Qed.

Lemma take_through_app {A : Type} (p : A -> bool) (l1 l2 : list A) :
  take_through p (l1 ++ l2) =
  if existsb p l1 then take_through p l1 else (l1 ++ take_through p l2)%list.
Proof.
  induction l1 as [|x l1 IH]; simpl; [reflexivity|].
  destruct (p x); simpl; [reflexivity|].
  rewrite IH. destruct (existsb p l1); reflexivity.
Qed.

Lemma take_through_prefix {A : Type} (p : A -> bool) (l : list A) :
  exists rest, l = (take_through p l ++ rest)%list.
Proof.
  induction l as [|x l [rest IH]]; simpl.
  - exists []. reflexivity.
  - destruct (p x).
    + exists l. reflexivity.
    + exists rest. simpl. congruence.
Qed.

Lemma nth_error_middle {A : Type} (pre : list A) (x : A) (post : list A) :
  nth_error (pre ++ x :: post) (List.length pre) = Some x.
Proof.
  induction pre as [|y pre IH]; simpl; [reflexivity | exact IH].
Qed.

Lemma inner_loop_comparisons nets i name1 net1 :
  nth_error nets i = Some (name1, net1) ->
  forall tail pre,
    nets = (pre ++ tail)%list ->
    comparisons (fst (inner_loop i name1 net1 tail (List.length pre))) =
      take_through (overlaps_at nets)
        (map (pair i) (seq (List.length pre) (List.length tail)))
    /\ (conflicts_with name1 net1 tail = [] <->
        existsb (overlaps_at nets)
          (map (pair i) (seq (List.length pre) (List.length tail))) = false).
Proof.
  intros Hi. induction tail as [|[name2 net2] rest IH]; intros pre Hn; simpl.
  - split; [reflexivity | tauto].
  - assert (Hat : overlaps_at nets (i, List.length pre) = overlaps net1 net2).
    { unfold overlaps_at. simpl. rewrite Hi, Hn, nth_error_middle. reflexivity. }
    rewrite Hat.
    destruct (overlaps net1 net2) eqn:E; simpl.
    + split; [reflexivity|]. split; discriminate.
    + specialize (IH (pre ++ [(name2, net2)])%list).
      rewrite <- app_assoc in IH. simpl in IH. specialize (IH Hn).
      rewrite length_app in IH. simpl in IH.
      rewrite Nat.add_1_r in IH.
      destruct (inner_loop i name1 net1 rest (S (List.length pre))) as [out r].
      simpl in *. destruct IH as [IH1 IH2].
      split; [congruence | exact IH2].
Qed.

Lemma outer_loop_comparisons nets :
  forall suffix pre,
    nets = (pre ++ suffix)%list ->
    comparisons (fst (outer_loop suffix (List.length pre))) =
    take_through (overlaps_at nets) (rows (List.length pre) (List.length suffix)).
Proof.
  induction suffix as [|[name1 net1] rest IH]; intros pre Hn; simpl.
  - reflexivity.
  - assert (Hi : nth_error nets (List.length pre) = Some (name1, net1)).
    { rewrite Hn. apply nth_error_middle. }
    specialize (IH (pre ++ [(name1, net1)])%list).
    rewrite <- app_assoc in IH. simpl in IH. specialize (IH Hn).
    destruct (inner_loop_comparisons nets _ name1 net1 Hi rest
                (pre ++ [(name1, net1)])%list) as [Hc Hx].
    { rewrite <- app_assoc. exact Hn. }
    rewrite length_app in IH, Hc, Hx. simpl in IH, Hc, Hx.
    rewrite Nat.add_1_r in IH, Hc, Hx.
    pose proof (inner_loop_outcome (List.length pre) name1 net1 rest
                  (S (List.length pre))) as Hout.
    unfold outcome in Hout.
    rewrite take_through_app.
    destruct (inner_loop (List.length pre) name1 net1 rest (S (List.length pre)))
      as [out r].
    simpl in *. subst r.
    destruct (conflicts_with name1 net1 rest) as [|c cs].
    + assert (Hnone : existsb (overlaps_at nets)
                (map (pair (List.length pre))
                   (seq (S (List.length pre)) (List.length rest))) = false)
        by (apply Hx; reflexivity).
      rewrite Hnone.
      destruct (outer_loop rest (S (List.length pre))) as [out' r']. simpl in *.
      rewrite comparisons_app, Hc, IH.
      rewrite take_through_none by exact Hnone. reflexivity.
    + simpl. rewrite app_nil_r.
      destruct (existsb _ _) eqn:Hex.
      * exact Hc.
      * destruct Hx as [_ Hx]. discriminate (Hx eq_refl).
Qed.

(** [rows] is the enumeration of the specification. *)
Lemma rows_flat_map (n len i : nat) :
  (i + len = n)%nat ->
  rows i len = flat_map (fun i => pairs_from i n) (seq i len).
Proof.
  revert i. induction len as [|len IH]; intros i H; simpl; [reflexivity|].
  rewrite IH by lia. f_equal. unfold pairs_from.
  replace (n - S i)%nat with len by lia. reflexivity.
Qed.

Lemma ordered_pairs_rows (n : nat) : ordered_pairs n = rows 0 n.
Proof.
  unfold ordered_pairs. symmetry. apply rows_flat_map. reflexivity.
Qed.

Lemma rows_length (len i : nat) :
  (2 * List.length (rows i len) = len * (len - 1))%nat.
Proof.
  revert i. induction len as [|len IH]; intros i; simpl; [reflexivity|].
  rewrite length_app, length_map, length_seq.
  specialize (IH (S i)). nia.
Qed.

Lemma rows_In (len i a b : nat) :
  In (a, b) (rows i len) <-> (i <= a /\ a < b /\ b < i + len)%nat.
Proof.
  revert i. induction len as [|len IH]; intros i; simpl.
  - split; [tauto | lia].
  - rewrite in_app_iff, in_map_iff, IH. split.
    + intros [(j & E & Hj) | H].
      * apply in_seq in Hj. inversion E; subst. lia.
      * lia.
    + intros (H1 & H2 & H3).
      destruct (Nat.eq_dec a i) as [-> | Hne].
      * left. exists b. split; [reflexivity | apply in_seq; lia].
      * right. lia.
Qed.

Lemma row_NoDup (i : nat) (js : list nat) :
  NoDup js -> NoDup (map (pair i) js).
Proof.
  induction 1 as [|j js Hj Hjs IH]; simpl; constructor; [|exact IH].
  intros Hin. apply in_map_iff in Hin. destruct Hin as (j' & E & Hj').
  inversion E; subst. contradiction.
Qed.

Lemma rows_NoDup (len i : nat) : NoDup (rows i len).
Proof.
  revert i. induction len as [|len IH]; intros i; simpl; [constructor|].
  apply NoDup_app.
  - apply row_NoDup, seq_NoDup.
  - apply IH.
  - intros [a b] Hin Hin'.
    apply in_map_iff in Hin. destruct Hin as (j & E & _).
    apply rows_In in Hin'. inversion E; subst. lia.
Qed.

(** ** Conflict-free lists *)

Lemma conflicts_with_nil name1 net1 rest :
  conflicts_with name1 net1 rest = [] <->
  (forall j b, nth_error rest j = Some b -> overlaps net1 (snd b) = false).
Proof.
  induction rest as [|[name2 net2] rest IH]; simpl.
  - split; [|reflexivity]. intros _ [|j] b H; discriminate.
  - destruct (overlaps net1 net2) eqn:E.
    + split; [discriminate|].
      intros H. specialize (H 0%nat (name2, net2) eq_refl). simpl in H. congruence.
    + rewrite IH. split.
      * intros H [|j] b Hb; simpl in Hb.
        -- inversion Hb; subst. exact E.
        -- eapply H; eassumption.
      * intros H j b Hb. apply (H (S j) b). exact Hb.
Qed.

Lemma all_conflicts_nil nets :
  all_conflicts nets = [] <->
  (forall i j a b, (i < j)%nat ->
     nth_error nets i = Some a -> nth_error nets j = Some b ->
     overlaps (snd a) (snd b) = false).
Proof.
  induction nets as [|[name1 net1] rest IH]; simpl.
  - split; [|reflexivity]. intros _ [|i] j a b _ H; discriminate.
  - split.
    + intros H. apply app_eq_nil in H. destruct H as [H1 H2].
      rewrite conflicts_with_nil in H1. rewrite IH in H2.
      intros [|i] [|j] a b Hij Ha Hb; simpl in *; try lia.
      * inversion Ha; subst. simpl. eapply H1; eassumption.
      * eapply (H2 i j); try eassumption. lia.
    + intros H.
      assert (H1 : conflicts_with name1 net1 rest = []).
      { apply conflicts_with_nil. intros j b Hb.
        apply (H 0%nat (S j) (name1, net1) b); [lia | reflexivity | exact Hb]. }
      assert (H2 : all_conflicts rest = []).
      { apply IH. intros i j a b Hij Ha Hb.
        apply (H (S i) (S j) a b); [lia | exact Ha | exact Hb]. }
      rewrite H1, H2. reflexivity.
Qed.

(** ** Running the check on a list of labelled CIDR strings *)

Lemma empty_text_rejected : IPv4Network_init (PyStr "") = Raise AddressValueError.
Proof. reflexivity. Qed.

Lemma parsed_truthy (s : string) (n : IPv4Network) :
  IPv4Network_init (PyStr s) = Ok n -> truthy (PyStr s) = true.
Proof.
  intros H. destruct s as [|c s]; [|reflexivity].
  rewrite empty_text_rejected in H. discriminate.
Qed.

Lemma bind_lift_ok {A B : Type} (a : A) (k : A -> run B) :
  bind (lift (Ok a)) k = k a.
Proof.
  unfold bind, lift. destruct (k a) as [out r]. reflexivity.
Qed.

(** One iteration of the first loop on a subnet resource. *)
Lemma collect_loop_subnet name cidr rest acc :
  collect_loop ((name, subnet_resource cidr) :: rest) acc =
  if truthy cidr then
    match IPv4Network_init cidr with
    | Ok network => collect_loop rest (acc ++ [(name, network)])%list
    | Raise e =>
        if is_ValueError e
        then ([Printed (MsgInvalidCidr name cidr)], Ok (Return false))
        else ([], Raise e)
    end
  else collect_loop rest acc.
Proof.
  unfold subnet_resource.
  cbn [collect_loop py_get dict_get].
  change (String.eqb "Type" "Type") with true.
  change (String.eqb "Type" "Properties") with false.
  change (String.eqb "Properties" "Properties") with true.
  cbv iota. rewrite bind_lift_ok.
  change (py_eq_str (PyStr Subnet_type) Subnet_type) with true.
  cbv iota. rewrite bind_lift_ok.
  cbn [py_get dict_get].
  change (String.eqb "CidrBlock" "CidrBlock") with true.
  cbv iota. rewrite bind_lift_ok.
  destruct (truthy cidr); [|reflexivity].
  destruct (IPv4Network_init cidr) as [network|e]; [reflexivity|].
  destruct (is_ValueError e); reflexivity.
Qed.

Lemma collect_loop_parsed_app entries nets :
  parsed_as entries nets ->
  forall rest acc,
    collect_loop
      (map (fun e => (fst e, subnet_resource (PyStr (snd e)))) entries ++ rest) acc
    = collect_loop rest (acc ++ nets)%list.
Proof.
  induction 1 as [|[label text] [name net] entries nets [Hl Hp] Hrest IH];
    intros rest acc.
  - simpl. rewrite app_nil_r. reflexivity.
  - cbn [fst snd] in Hl, Hp. subst name.
    cbn [map fst snd]. rewrite <- app_comm_cons, collect_loop_subnet.
    rewrite (parsed_truthy _ _ Hp), Hp, IH, <- app_assoc. reflexivity.
Qed.

Lemma collect_loop_parsed entries nets :
  parsed_as entries nets ->
  forall acc,
    collect_loop (map (fun e => (fst e, subnet_resource (PyStr (snd e)))) entries) acc
    = ([], Ok (Continue (acc ++ nets)%list)).
Proof.
  intros H acc.
  pose proof (collect_loop_parsed_app _ _ H [] acc) as E.
  rewrite app_nil_r in E. exact E.
Qed.

Lemma validate_template_of entries nets :
  parsed_as entries nets ->
  validate_cidr_ranges (template_of entries) =
  (print MsgValidating ;;;
   r <- outer_loop nets 0%nat ;;
   match r with
   | Return b => ret b
   | Continue _ => print MsgValid ;;; ret true
   end)%run.
Proof.
  intros H. unfold validate_cidr_ranges, template_of, template_with.
  cbn [py_get dict_get].
  change (String.eqb "Resources" "Resources") with true. cbv iota.
  rewrite bind_lift_ok. cbn [py_items]. rewrite bind_lift_ok.
  rewrite (collect_loop_parsed _ _ H []). simpl.
  destruct (outer_loop nets 0) as [out [[u|b]|e]]; reflexivity.
Qed.

Lemma validate_outcome entries nets :
  parsed_as entries nets ->
  outcome (validate_cidr_ranges (template_of entries)) =
  Ok (match all_conflicts nets with [] => true | _ :: _ => false end).
Proof.
  intros H. rewrite (validate_template_of _ _ H).
  pose proof (outer_loop_outcome nets 0) as Ho. unfold outcome in *.
  destruct (outer_loop nets 0) as [out r]. simpl in *. subst r.
  destruct (all_conflicts nets); reflexivity.
Qed.

Lemma validate_comparisons entries nets :
  parsed_as entries nets ->
  comparisons (fst (validate_cidr_ranges (template_of entries))) =
  comparisons (fst (outer_loop nets 0)).
Proof.
  intros H. rewrite (validate_template_of _ _ H).
  destruct (outer_loop nets 0) as [out [[u|b]|e]]; simpl;
    rewrite ?comparisons_app; simpl; rewrite ?app_nil_r; reflexivity.
Qed.

Lemma validate_reported entries nets :
  parsed_as entries nets ->
  reported_conflicts (printed (fst (validate_cidr_ranges (template_of entries)))) =
  reported_conflicts (printed (fst (outer_loop nets 0))).
Proof.
  intros H. rewrite (validate_template_of _ _ H).
  destruct (outer_loop nets 0) as [out [[u|b]|e]]; simpl;
    rewrite ?printed_app, ?reported_conflicts_app; simpl;
    rewrite ?app_nil_r; reflexivity.
Qed.

Lemma parsed_as_length entries nets :
  parsed_as entries nets -> List.length nets = List.length entries.
Proof.
  induction 1; simpl; congruence.
Qed.

Lemma parsed_as_nth entries nets :
  parsed_as entries nets ->
  forall i e, nth_error entries i = Some e ->
    exists n, nth_error nets i = Some n /\ fst n = fst e /\
              IPv4Network_init (PyStr (snd e)) = Ok (snd n).
Proof.
  induction 1 as [|e0 n0 entries nets H0 Hrest IH]; intros [|i] e He;
    simpl in *; try discriminate.
  - inversion He; subst. exists n0. split; [reflexivity | exact H0].
  - apply IH. exact He.
Qed.

Lemma parsed_as_nth_inv entries nets :
  parsed_as entries nets ->
  forall i n, nth_error nets i = Some n ->
    exists e, nth_error entries i = Some e /\ fst n = fst e /\
              IPv4Network_init (PyStr (snd e)) = Ok (snd n).
Proof.
  induction 1 as [|e0 n0 entries nets H0 Hrest IH]; intros [|i] n Hn;
    simpl in *; try discriminate.
  - inversion Hn; subst. exists e0. split; [reflexivity | exact H0].
  - apply IH. exact Hn.
Qed.

Lemma parsed_as_exists entries :
  (forall e, In e entries -> exists n, IPv4Network_init (PyStr (snd e)) = Ok n) ->
  exists nets, parsed_as entries nets.
Proof.
  induction entries as [|e entries IH]; intros H.
  - exists []. constructor.
  - destruct (H e (or_introl eq_refl)) as [n Hn].
    destruct IH as [nets Hnets]; [intros; apply H; right; assumption|].
    exists ((fst e, n) :: nets). constructor; [split; [reflexivity | exact Hn] | exact Hnets].
Qed.

(** ** Text of decimal numbers and of CIDRs *)

Lemma string_of_uint_digits (u : Decimal.uint) :
  all_digits (NilEmpty.string_of_uint u) = true.
Proof.
  induction u; simpl; auto.
Qed.

Lemma all_digits_no_char (c : ascii) (s : string) :
  is_digit c = false -> all_digits s = true -> no_char c s = true.
Proof.
  intros Hc. unfold no_char.
  induction s as [|x s IH]; simpl; [reflexivity|].
  intros H. apply andb_true_iff in H. destruct H as [Hx Hs].
  destruct (Ascii.eqb_spec c x) as [-> | Hne]; simpl.
  - congruence.
  - apply IH. exact Hs.
Qed.

Lemma py_str_int_nonneg (z : Z) :
  0 <= z -> py_str_int z = NilEmpty.string_of_uint (N.to_uint (Z.to_N z)).
Proof.
  intros Hz. destruct z; [reflexivity | reflexivity | lia].
Qed.

Lemma py_str_int_neg (z : Z) :
  z < 0 -> exists u, py_str_int z = String "-" (NilEmpty.string_of_uint u).
Proof.
  intros Hz. destruct z as [|p|p]; try lia.
  exists (Pos.to_uint p). reflexivity.
Qed.

Lemma py_str_int_no_char (c : ascii) (z : Z) :
  is_digit c = false -> Ascii.eqb c "-" = false ->
  no_char c (py_str_int z) = true.
Proof.
  intros Hd Hm.
  destruct (Z_lt_le_dec z 0) as [Hneg | Hpos].
  - destruct (py_str_int_neg z Hneg) as [u ->].
    pose proof (all_digits_no_char c _ Hd (string_of_uint_digits u)) as H.
    unfold no_char in *. simpl. rewrite Hm. exact H.
  - rewrite py_str_int_nonneg by exact Hpos.
    apply all_digits_no_char; [exact Hd | apply string_of_uint_digits].
Qed.

Lemma py_str_int_neg_not_digits (z : Z) :
  z < 0 -> isascii_isdigit (py_str_int z) = false.
Proof.
  intros Hz. destruct (py_str_int_neg z Hz) as [u ->]. reflexivity.
Qed.

(** [int(str(z))] gives [z] back, unless the text exceeds the digit limit. *)
Lemma py_int_py_str_int (z : Z) :
  0 <= z ->
  py_int (py_str_int z) = Ok z \/ py_int (py_str_int z) = Raise ValueError.
Proof.
  intros Hz. unfold py_int.
  destruct (Nat.ltb _ _); [right; reflexivity|].
  left. rewrite py_str_int_nonneg by exact Hz.
  rewrite NilEmpty.usu, DecimalN.Unsigned.of_to.
  f_equal. lia.
Qed.

Lemma no_char_app (c : ascii) (s1 s2 : string) :
  no_char c (s1 ++ s2) = (no_char c s1 && no_char c s2)%bool.
Proof.
  unfold no_char. induction s1 as [|x s1 IH]; simpl; [reflexivity|].
  destruct (Ascii.eqb c x); simpl; [reflexivity | exact IH].
Qed.

Lemma split_no_char (c : ascii) (s : string) :
  no_char c s = true -> split c s = [s].
Proof.
  unfold no_char. induction s as [|x s IH]; simpl; [reflexivity|].
  rewrite (Ascii.eqb_sym x c).
  destruct (Ascii.eqb c x); simpl; [discriminate|].
  intros H. rewrite IH by exact H. reflexivity.
Qed.

Lemma split_app_sep (c : ascii) (s1 s2 : string) :
  no_char c s1 = true ->
  split c (s1 ++ String c s2) = s1 :: split c s2.
Proof.
  unfold no_char. induction s1 as [|x s1 IH]; simpl.
  - intros _. rewrite Ascii.eqb_refl. reflexivity.
  - rewrite (Ascii.eqb_sym x c).
    destruct (Ascii.eqb c x); simpl; [discriminate|].
    intros H. rewrite IH by exact H. reflexivity.
Qed.

Lemma append_sep_nonempty (s1 s2 : string) (c : ascii) :
  String.eqb (s1 ++ String c s2) "" = false.
Proof. destruct s1; reflexivity. Qed.

Lemma no_char_cons (c x : ascii) (s : string) :
  no_char c (String x s) = (negb (Ascii.eqb c x) && no_char c s)%bool.
Proof.
  unfold no_char. simpl. destruct (Ascii.eqb c x); reflexivity.
Qed.

Section CidrText.

Variables a b c d : Z.

Lemma address_text_shape :
  address_text a b c d =
  (py_str_int a ++ String "."
     (py_str_int b ++ String "."
        (py_str_int c ++ String "." (py_str_int d))))%string.
Proof. reflexivity. Qed.

Lemma cidr_text_shape (n : Z) :
  cidr_text a b c d n =
  (address_text a b c d ++ String "/" (py_str_int n))%string.
Proof. reflexivity. Qed.

Lemma addr_no_slash : no_char "/" (address_text a b c d) = true.
Proof.
  rewrite address_text_shape.
  repeat (rewrite no_char_app || rewrite no_char_cons
          || rewrite py_str_int_no_char by reflexivity).
  reflexivity.
Qed.

Lemma cidr_text_split (n : Z) :
  split "/" (cidr_text a b c d n) = [address_text a b c d; py_str_int n].
Proof.
  rewrite cidr_text_shape.
  rewrite split_app_sep by apply addr_no_slash.
  rewrite split_no_char by (apply py_str_int_no_char; reflexivity).
  reflexivity.
Qed.

Lemma addr_split :
  split "." (address_text a b c d) =
  [py_str_int a; py_str_int b; py_str_int c; py_str_int d].
Proof.
  rewrite address_text_shape.
  rewrite !split_app_sep by (apply py_str_int_no_char; reflexivity).
  rewrite split_no_char by (apply py_str_int_no_char; reflexivity).
  reflexivity.
Qed.

Lemma addr_nonempty : String.eqb (address_text a b c d) "" = false.
Proof.
  rewrite address_text_shape. apply append_sep_nonempty.
Qed.

Lemma cidr_text_truthy (n : Z) : truthy (PyStr (cidr_text a b c d n)) = true.
Proof.
  rewrite cidr_text_shape. simpl.
  rewrite append_sep_nonempty. reflexivity.
Qed.

End CidrText.

(** ** Parsing the text of a CIDR *)

Lemma parse_octet_table :
  forallb (fun k =>
             match _parse_octet (py_str_int (Z.of_nat k)) with
             | Ok v => v =? Z.of_nat k
             | Raise _ => false
             end) (seq 0 256) = true.
Proof. vm_compute. reflexivity. Qed.

Lemma parse_octet_in_range (x : Z) :
  octet_ok x -> _parse_octet (py_str_int x) = Ok x.
Proof.
  intros Hx. unfold octet_ok in Hx.
  pose proof parse_octet_table as T. rewrite forallb_forall in T.
  specialize (T (Z.to_nat x)).
  rewrite Z2Nat.id in T by lia.
  assert (Hin : In (Z.to_nat x) (seq 0 256)) by (apply in_seq; lia).
  specialize (T Hin).
  destruct (_parse_octet (py_str_int x)) as [v|]; [|discriminate].
  apply Z.eqb_eq in T. congruence.
Qed.

Lemma parse_octet_out_of_range (x : Z) :
  ~ octet_ok x -> exists e, _parse_octet (py_str_int x) = Raise e.
Proof.
  intros Hx. unfold octet_ok in Hx. unfold _parse_octet.
  destruct (String.eqb _ ""); [eexists; reflexivity|].
  destruct (Z_lt_le_dec x 0) as [Hneg | Hpos].
  - rewrite py_str_int_neg_not_digits by exact Hneg. eexists; reflexivity.
  - destruct (negb (isascii_isdigit _)); [eexists; reflexivity|].
    destruct (Nat.ltb 3 _); [eexists; reflexivity|].
    destruct (negb _ && _)%bool; [eexists; reflexivity|].
    destruct (py_int_py_str_int x Hpos) as [-> | ->]; [|eexists; reflexivity].
    assert ((x >? 255) = true) as -> by (apply Z.gtb_lt; lia).
    eexists; reflexivity.
Qed.

Lemma octet_ok_dec (x : Z) : {octet_ok x} + {~ octet_ok x}.
Proof.
  unfold octet_ok.
  destruct (Z_le_dec 0 x); [destruct (Z_le_dec x 255)|]; [left | right | right]; lia.
Qed.

Lemma ip_int_from_address_text (a b c d : Z) :
  (octet_ok a /\ octet_ok b /\ octet_ok c /\ octet_ok d ->
   _ip_int_from_string (address_text a b c d) = Ok (ip_of_octets a b c d)) /\
  (~ (octet_ok a /\ octet_ok b /\ octet_ok c /\ octet_ok d) ->
   _ip_int_from_string (address_text a b c d) = Raise AddressValueError).
Proof.
  unfold _ip_int_from_string.
  rewrite addr_nonempty, addr_split. cbn [List.length Nat.eqb negb].
  cbn [map_parse_octet]. unfold rbind.
  split.
  - intros (Ha & Hb & Hc & Hd).
    rewrite !parse_octet_in_range by assumption. reflexivity.
  - intros Hbad.
    destruct (octet_ok_dec a) as [Ha | Ha];
      [rewrite (parse_octet_in_range a Ha)
      | destruct (parse_octet_out_of_range a Ha) as [e ->]; reflexivity].
    destruct (octet_ok_dec b) as [Hb | Hb];
      [rewrite (parse_octet_in_range b Hb)
      | destruct (parse_octet_out_of_range b Hb) as [e ->]; reflexivity].
    destruct (octet_ok_dec c) as [Hc | Hc];
      [rewrite (parse_octet_in_range c Hc)
      | destruct (parse_octet_out_of_range c Hc) as [e ->]; reflexivity].
    destruct (octet_ok_dec d) as [Hd | Hd];
      [tauto
      | destruct (parse_octet_out_of_range d Hd) as [e ->]; reflexivity].
Qed.

Lemma prefix_string_in_range (n : Z) :
  0 <= n <= 32 -> _prefix_from_prefix_string (py_str_int n) = Ok n.
Proof.
  intros H. each_prefix n H.
Qed.

Lemma make_netmask_out_of_range (n : Z) :
  ~ (0 <= n <= 32) ->
  _make_netmask (MaskStr (py_str_int n)) = Raise NetmaskValueError.
Proof.
  intros Hn.
  assert (H1 : exists e, _prefix_from_prefix_string (py_str_int n) = Raise e).
  { unfold _prefix_from_prefix_string, _report_invalid_netmask.
    destruct (Z_lt_le_dec n 0) as [Hneg | Hpos].
    - rewrite py_str_int_neg_not_digits by exact Hneg. eexists; reflexivity.
    - destruct (negb (isascii_isdigit _)); [eexists; reflexivity|].
      destruct (py_int_py_str_int n Hpos) as [-> | ->]; [|eexists; reflexivity].
      unfold _max_prefixlen, IPV4LENGTH.
      assert ((0 <=? n) && (n <=? 32) = false)%bool as ->.
      { apply andb_false_iff. right. apply Z.leb_gt. lia. }
      eexists; reflexivity. }
  assert (H2 : _prefix_from_ip_string (py_str_int n) = Raise NetmaskValueError).
  { unfold _prefix_from_ip_string, _ip_int_from_string, _report_invalid_netmask.
    destruct (String.eqb _ ""); [reflexivity|].
    rewrite split_no_char by (apply py_str_int_no_char; reflexivity).
    reflexivity. }
  destruct H1 as [e H1].
  unfold _make_netmask, rbind. rewrite H1, H2. reflexivity.
Qed.

Lemma ip_of_octets_bounds (a b c d : Z) :
  octet_ok a -> octet_ok b -> octet_ok c -> octet_ok d ->
  0 <= ip_of_octets a b c d < 2 ^ 32.
Proof.
  unfold octet_ok, ip_of_octets, int_from_bytes_big. simpl fold_left.
  change (2 ^ 32) with 4294967296. lia.
Qed.

Lemma host_bits_break_mask (ip n : Z) :
  0 <= ip < 2 ^ 32 -> 0 <= n <= 32 ->
  Z.land ip (Z.ones (32 - n)) <> 0 ->
  (Z.land ip (_ip_int_from_prefix n) =? ip) = false.
Proof.
  intros Hip Hn Hset.
  rewrite netmask_value by exact Hn.
  rewrite land_high_mask by lia.
  rewrite Z.land_ones in Hset by lia.
  apply Z.eqb_neq. lia.
Qed.

(** Every malformed CIDR text is rejected by the constructor. *)
Lemma malformed_text_raises (a b c d n : Z) :
  malformed a b c d n ->
  exists e, IPv4Network_init (PyStr (cidr_text a b c d n)) = Raise e.
Proof.
  intros Hbad.
  cbn [IPv4Network_init]. unfold IPv4Network_of_str, _split_optional_netmask.
  rewrite cidr_text_split. cbn [List.length Nat.ltb Nat.leb rbind].
  unfold IPv4Address_of_str.
  pose proof (addr_no_slash a b c d) as Hns. unfold no_char in Hns.
  apply negb_true_iff in Hns. rewrite Hns.
  destruct (ip_int_from_address_text a b c d) as [Hgood Hraise].
  destruct (octet_ok_dec a) as [Ha | Ha];
    [| rewrite Hraise by tauto; eexists; reflexivity].
  destruct (octet_ok_dec b) as [Hb | Hb];
    [| rewrite Hraise by tauto; eexists; reflexivity].
  destruct (octet_ok_dec c) as [Hc | Hc];
    [| rewrite Hraise by tauto; eexists; reflexivity].
  destruct (octet_ok_dec d) as [Hd | Hd];
    [| rewrite Hraise by tauto; eexists; reflexivity].
  rewrite Hgood by tauto.
  unfold finish_network, rbind.
  destruct (Z_le_dec 0 n) as [Hn0 | Hn0];
    [| rewrite make_netmask_out_of_range by lia; eexists; reflexivity].
  destruct (Z_le_dec n 32) as [Hn1 | Hn1];
    [| rewrite make_netmask_out_of_range by lia; eexists; reflexivity].
  unfold _make_netmask, rbind.
  rewrite prefix_string_in_range by lia. cbn [fst snd].
  destruct Hbad as [Hbad | [Hbad | Hbad]]; [tauto | lia |].
  rewrite host_bits_break_mask;
    [eexists; reflexivity | apply ip_of_octets_bounds; assumption | lia | exact Hbad].
Qed.

(** ** Resources the check passes over *)

Lemma collect_loop_skip name resource rest acc :
  resource_shaped resource = true -> considered resource = false ->
  collect_loop ((name, resource) :: rest) acc = collect_loop rest acc.
Proof.
  intros Hs Hc.
  destruct resource as [ | | | | | dct]; try discriminate.
  cbn [collect_loop py_get].
  unfold resource_shaped in Hs. unfold considered in Hc.
  destruct (dict_get dct "Type") as [ty|]; rewrite bind_lift_ok.
  - destruct (py_eq_str ty Subnet_type) eqn:Ety; [|reflexivity].
    destruct (dict_get dct "Properties") as [props|]; rewrite bind_lift_ok.
    + destruct props as [ | | | | | p]; try discriminate.
      cbn [py_get].
      destruct (dict_get p "CidrBlock") as [cidr|]; rewrite bind_lift_ok.
      * simpl in Hc. rewrite Hc. reflexivity.
      * reflexivity.
    + cbn [py_get dict_get]. rewrite bind_lift_ok. reflexivity.
  - reflexivity.
Qed.

Lemma collect_loop_congr (l1 l2 : list (string * pyval)) :
  (forall acc, collect_loop l1 acc = collect_loop l2 acc) ->
  forall pre acc, collect_loop (pre ++ l1) acc = collect_loop (pre ++ l2) acc.
Proof.
  intros H. induction pre as [|[name resource] pre IH]; intros acc.
  - apply H.
  - rewrite <- !app_comm_cons. cbn [collect_loop].
    destruct (py_get resource "Type" PyNone) as [ty|e]; [|reflexivity].
    rewrite !bind_lift_ok.
    destruct (py_eq_str ty Subnet_type); [|apply IH].
    destruct (py_get resource "Properties" (PyDict [])) as [props|e];
      [|reflexivity].
    rewrite !bind_lift_ok.
    destruct (py_get props "CidrBlock" PyNone) as [cidr|e]; [|reflexivity].
    rewrite !bind_lift_ok.
    destruct (truthy cidr); [|apply IH].
    destruct (IPv4Network_init cidr) as [network|e]; [apply IH | reflexivity].
Qed.

Lemma validate_resources_congr (rs1 rs2 : list (string * pyval)) :
  collect_loop rs1 [] = collect_loop rs2 [] ->
  validate_cidr_ranges (template_with rs1) = validate_cidr_ranges (template_with rs2).
Proof.
  intros H. unfold validate_cidr_ranges, template_with.
  cbn [py_get dict_get].
  change (String.eqb "Resources" "Resources") with true. cbv iota.
  rewrite !bind_lift_ok. cbn [py_items]. rewrite !bind_lift_ok.
  rewrite H. reflexivity.
Qed.

(** * The claims *)

(** C1.  For a list of (label, CIDR) pairs whose CIDR strings all parse,
    [validate_cidr_ranges] returns [True] if and only if the [start, end]
    address ranges of every two distinct entries have empty intersection;
    and for parsed prefixes [overlaps] holds exactly when the two ranges
    share an address. *)
Theorem validate_cidr_ranges_iff_disjoint (entries : list (string * string)) :
  (forall e, In e entries -> exists n, IPv4Network_init (PyStr (snd e)) = Ok n) ->
  (outcome (validate_cidr_ranges (template_of entries)) = Ok true <->
   (forall i j e1 e2 n1 n2, i <> j ->
      nth_error entries i = Some e1 -> nth_error entries j = Some e2 ->
      IPv4Network_init (PyStr (snd e1)) = Ok n1 ->
      IPv4Network_init (PyStr (snd e2)) = Ok n2 ->
      ~ ranges_intersect n1 n2))
  /\
  (forall e1 e2 n1 n2, In e1 entries -> In e2 entries ->
      IPv4Network_init (PyStr (snd e1)) = Ok n1 ->
      IPv4Network_init (PyStr (snd e2)) = Ok n2 ->
      (overlaps n1 n2 = true <-> ranges_intersect n1 n2)).
Proof.
  intros Hparse.
  destruct (parsed_as_exists entries Hparse) as [nets Hnets].
  split.
  - rewrite (validate_outcome _ _ Hnets).
    split.
    + intros Hok i j e1 e2 n1 n2 Hij H1 H2 P1 P2 Hint.
      assert (Hnil : all_conflicts nets = []).
      { destruct (all_conflicts nets); [reflexivity | discriminate]. }
      rewrite all_conflicts_nil in Hnil.
      destruct (parsed_as_nth _ _ Hnets i e1 H1) as (m1 & Hm1 & _ & Q1).
      destruct (parsed_as_nth _ _ Hnets j e2 H2) as (m2 & Hm2 & _ & Q2).
      assert (snd m1 = n1) by congruence.
      assert (snd m2 = n2) by congruence.
      subst n1 n2.
      pose proof (IPv4Network_init_wf _ _ Q1) as W1.
      pose proof (IPv4Network_init_wf _ _ Q2) as W2.
      apply (overlaps_intersect _ _ W1 W2) in Hint.
      destruct (Nat.lt_total i j) as [Hlt | [Heq | Hgt]]; [| contradiction |].
      * rewrite (Hnil i j m1 m2 Hlt Hm1 Hm2) in Hint. discriminate.
      * rewrite overlaps_comm in Hint.
        rewrite (Hnil j i m2 m1 Hgt Hm2 Hm1) in Hint. discriminate.
    + intros Hdis.
      assert (Hnil : all_conflicts nets = []).
      { apply all_conflicts_nil. intros i j a b Hij Ha Hb.
        destruct (parsed_as_nth_inv _ _ Hnets i a Ha) as (e1 & He1 & _ & Q1).
        destruct (parsed_as_nth_inv _ _ Hnets j b Hb) as (e2 & He2 & _ & Q2).
        pose proof (IPv4Network_init_wf _ _ Q1) as W1.
        pose proof (IPv4Network_init_wf _ _ Q2) as W2.
        destruct (overlaps (snd a) (snd b)) eqn:E; [|reflexivity].
        apply (overlaps_intersect _ _ W1 W2) in E.
        exfalso. apply (Hdis i j e1 e2 (snd a) (snd b)); try assumption. lia. }
      rewrite Hnil. reflexivity.
  - intros e1 e2 n1 n2 _ _ P1 P2.
    apply overlaps_intersect; eapply IPv4Network_init_wf; eassumption.
Qed.

Lemma adjacent_entries_parse :
  forall e, In e adjacent_entries ->
    exists n, IPv4Network_init (PyStr (snd e)) = Ok n.
Proof.
  intros e [<- | [<- | []]]; eexists; vm_compute; reflexivity.
Qed.

Lemma validate_cidr_ranges_iff_disjoint_witness :
  (forall e, In e adjacent_entries ->
     exists n, IPv4Network_init (PyStr (snd e)) = Ok n) /\
  ((outcome (validate_cidr_ranges (template_of adjacent_entries)) = Ok true <->
    (forall i j e1 e2 n1 n2, i <> j ->
       nth_error adjacent_entries i = Some e1 ->
       nth_error adjacent_entries j = Some e2 ->
       IPv4Network_init (PyStr (snd e1)) = Ok n1 ->
       IPv4Network_init (PyStr (snd e2)) = Ok n2 ->
       ~ ranges_intersect n1 n2))
   /\
   (forall e1 e2 n1 n2, In e1 adjacent_entries -> In e2 adjacent_entries ->
       IPv4Network_init (PyStr (snd e1)) = Ok n1 ->
       IPv4Network_init (PyStr (snd e2)) = Ok n2 ->
       (overlaps n1 n2 = true <-> ranges_intersect n1 n2))).
Proof.
  split.
  - exact adjacent_entries_parse.
  - apply (validate_cidr_ranges_iff_disjoint adjacent_entries).
    exact adjacent_entries_parse.
Defined.

(** C2 (as stated, refuted).  On three nested prefixes all three pairs
    conflict, but the run reports only the first of them. *)
Lemma reports_not_all_conflicts :
  parsed_as nested_entries nested_nets /\
  all_conflicts nested_nets = [("S1", "S2"); ("S1", "S3"); ("S2", "S3")] /\
  reported_conflicts
    (printed (fst (validate_cidr_ranges (template_of nested_entries))))
  = [("S1", "S2")] /\
  reported_conflicts
    (printed (fst (validate_cidr_ranges (template_of nested_entries))))
  <> all_conflicts nested_nets.
Proof.
  split; [|split; [|split]].
  - repeat constructor.
  - vm_compute. reflexivity.
  - vm_compute. reflexivity.
  - vm_compute. discriminate.
Qed.

(** C2 (amended).  For labelled prefixes that all parse, the run reports
    at most one conflict: the first conflicting pair in scan order, naming
    its two labels; it returns [False] when some pair conflicts and [True],
    with no conflict reported, when none does. *)
Theorem reports_first_conflict entries nets :
  parsed_as entries nets ->
  reported_conflicts
    (printed (fst (validate_cidr_ranges (template_of entries))))
  = firstn 1 (all_conflicts nets)
  /\
  outcome (validate_cidr_ranges (template_of entries))
  = Ok (match all_conflicts nets with [] => true | _ :: _ => false end).
Proof.
  intros H. split.
  - rewrite (validate_reported _ _ H). apply outer_loop_reported.
  - apply validate_outcome. exact H.
Qed.

Lemma nested_entries_parsed : parsed_as nested_entries nested_nets.
Proof. repeat constructor. Qed.

Lemma reports_first_conflict_witness :
  parsed_as nested_entries nested_nets /\
  (reported_conflicts
     (printed (fst (validate_cidr_ranges (template_of nested_entries))))
   = firstn 1 (all_conflicts nested_nets)
   /\
   outcome (validate_cidr_ranges (template_of nested_entries))
   = Ok (match all_conflicts nested_nets with [] => true | _ :: _ => false end)).
Proof.
  split.
  - exact nested_entries_parsed.
  - apply (reports_first_conflict nested_entries nested_nets).
    exact nested_entries_parsed.
Defined.

(** C3.  A CIDR text "a.b.c.d/n" that is malformed -- an octet out of
    range, a prefix length outside [0, 32], or host bits set beyond the
    prefix length -- makes the constructor raise a [ValueError] instead of
    yielding a network; the check then prints the label and the text of
    that entry and returns [False] at once, whatever follows it in the
    template, without comparing anything. *)
Theorem malformed_cidr_rejected (a b c d n : Z) :
  malformed a b c d n ->
  (exists e, IPv4Network_init (PyStr (cidr_text a b c d n)) = Raise e /\
             is_ValueError e = true) /\
  (forall entries nets name post,
     parsed_as entries nets ->
     validate_cidr_ranges
       (template_with
          (map (fun e => (fst e, subnet_resource (PyStr (snd e)))) entries ++
           (name, subnet_resource (PyStr (cidr_text a b c d n))) :: post))
     = ([Printed MsgValidating;
         Printed (MsgInvalidCidr name (PyStr (cidr_text a b c d n)))],
        Ok false)).
Proof.
  intros Hbad.
  destruct (malformed_text_raises a b c d n Hbad) as [e He].
  pose proof (IPv4Network_init_raises _ _ He) as Hv.
  split; [exists e; split; assumption|].
  intros entries nets name post Hp.
  unfold validate_cidr_ranges, template_with.
  cbn [py_get dict_get].
  change (String.eqb "Resources" "Resources") with true. cbv iota.
  rewrite bind_lift_ok. cbn [py_items]. rewrite bind_lift_ok.
  rewrite (collect_loop_parsed_app _ _ Hp).
  rewrite collect_loop_subnet, cidr_text_truthy, He, Hv.
  reflexivity.
Qed.

Lemma host_bits_sample : malformed 10 0 0 65 26.
Proof.
  right. right. unfold host_bits_set. vm_compute. discriminate.
Qed.

Lemma malformed_cidr_rejected_witness :
  malformed 10 0 0 65 26 /\
  ((exists e, IPv4Network_init (PyStr (cidr_text 10 0 0 65 26)) = Raise e /\
              is_ValueError e = true) /\
   (forall entries nets name post,
      parsed_as entries nets ->
      validate_cidr_ranges
        (template_with
           (map (fun e => (fst e, subnet_resource (PyStr (snd e)))) entries ++
            (name, subnet_resource (PyStr (cidr_text 10 0 0 65 26))) :: post))
      = ([Printed MsgValidating;
          Printed (MsgInvalidCidr name (PyStr (cidr_text 10 0 0 65 26)))],
         Ok false))).
Proof.
  split.
  - exact host_bits_sample.
  - exact (malformed_cidr_rejected 10 0 0 65 26 host_bits_sample).
Defined.

Example malformed_octet :
  malformed 10 0 0 256 24 /\ cidr_text 10 0 0 256 24 = "10.0.0.256/24".
Proof.
  split; [|reflexivity]. left. unfold octet_ok. lia.
Qed.

Example malformed_prefix :
  malformed 10 0 0 0 33 /\ cidr_text 10 0 0 0 33 = "10.0.0.0/33".
Proof.
  split; [|reflexivity]. right. left. lia.
Qed.

(** C4 (as stated, refuted).  On three nested prefixes the scan makes one
    comparison, not C(3,2) = 3. *)
Lemma scan_stops_before_all_pairs :
  comparisons (fst (validate_cidr_ranges (template_of nested_entries)))
  = [(0, 1)]%nat /\
  List.length
    (comparisons (fst (validate_cidr_ranges (template_of nested_entries))))
  <> (List.length nested_entries * (List.length nested_entries - 1) / 2)%nat.
Proof.
  split.
  - vm_compute. reflexivity.
  - vm_compute. discriminate.
Qed.

(** C4 (amended).  For [n] labelled prefixes that all parse, the scan
    visits the index pairs [i < j] in row order and stops at the first
    overlapping pair: the compared pairs are the enumeration of all pairs
    [i < j < n] up to and including the first overlapping one.  Hence no
    pair is compared twice, no entry is compared with itself, at most
    [n(n-1)/2] comparisons are made, and exactly [n(n-1)/2], covering every
    pair, when the check succeeds. *)
Theorem scan_compares_pairs_in_order entries nets :
  parsed_as entries nets ->
  let n := List.length entries in
  let cs := comparisons (fst (validate_cidr_ranges (template_of entries))) in
  cs = take_through (overlaps_at nets) (ordered_pairs n) /\
  (exists rest, ordered_pairs n = (cs ++ rest)%list) /\
  NoDup cs /\
  (forall i j, In (i, j) cs -> (i < j < n)%nat) /\
  (List.length cs <= n * (n - 1) / 2)%nat /\
  (outcome (validate_cidr_ranges (template_of entries)) = Ok true ->
   cs = ordered_pairs n /\ List.length cs = (n * (n - 1) / 2)%nat).
Proof.
  intros H n cs.
  pose proof (parsed_as_length _ _ H) as Hlen.
  assert (Hcs : cs = take_through (overlaps_at nets) (ordered_pairs n)).
  { unfold cs. rewrite (validate_comparisons _ _ H).
    pose proof (outer_loop_comparisons nets nets [] eq_refl) as Hc.
    cbn [List.length] in Hc. rewrite Hc.
    rewrite ordered_pairs_rows. unfold n. rewrite Hlen. reflexivity. }
  destruct (take_through_prefix (overlaps_at nets) (ordered_pairs n)) as [rest Hrest].
  rewrite <- Hcs in Hrest.
  pose proof (rows_NoDup n 0) as Hnd. rewrite <- ordered_pairs_rows in Hnd.
  pose proof (rows_length n 0) as Hl. rewrite <- ordered_pairs_rows in Hl.
  assert (Htot : List.length (ordered_pairs n) = (n * (n - 1) / 2)%nat).
  { apply Nat.div_unique_exact; lia. }
  split; [exact Hcs|].
  split; [exists rest; exact Hrest|].
  split; [rewrite Hrest in Hnd; eapply NoDup_app_remove_r; exact Hnd|].
  split.
  { intros i j Hin.
    assert (Hin' : In (i, j) (ordered_pairs n)).
    { rewrite Hrest. apply in_or_app. left. exact Hin. }
    rewrite ordered_pairs_rows in Hin'. apply rows_In in Hin'. lia. }
  split.
  { rewrite <- Htot, Hrest, length_app. lia. }
  intros Hok.
  rewrite (validate_outcome _ _ H) in Hok.
  assert (Hnil : all_conflicts nets = []).
  { destruct (all_conflicts nets); [reflexivity | discriminate]. }
  assert (Hnone : existsb (overlaps_at nets) (ordered_pairs n) = false).
  { destruct (existsb _ _) eqn:E; [|reflexivity].
    apply existsb_exists in E. destruct E as ([i j] & Hin & Hov).
    rewrite ordered_pairs_rows in Hin. apply rows_In in Hin.
    unfold overlaps_at in Hov. simpl in Hov.
    destruct (nth_error nets i) as [a|] eqn:Ea; [|discriminate].
    destruct (nth_error nets j) as [b|] eqn:Eb; [|discriminate].
    rewrite all_conflicts_nil in Hnil.
    rewrite (Hnil i j a b) in Hov; [discriminate | lia | exact Ea | exact Eb]. }
  rewrite take_through_none in Hcs by exact Hnone.
  split; [exact Hcs | rewrite Hcs; exact Htot].
Qed.

Lemma adjacent_entries_parsed : parsed_as adjacent_entries adjacent_nets.
Proof. repeat constructor. Qed.

Lemma scan_compares_pairs_in_order_witness :
  parsed_as adjacent_entries adjacent_nets /\
  (let n := List.length adjacent_entries in
   let cs :=
     comparisons (fst (validate_cidr_ranges (template_of adjacent_entries))) in
   cs = take_through (overlaps_at adjacent_nets) (ordered_pairs n) /\
   (exists rest, ordered_pairs n = (cs ++ rest)%list) /\
   NoDup cs /\
   (forall i j, In (i, j) cs -> (i < j < n)%nat) /\
   (List.length cs <= n * (n - 1) / 2)%nat /\
   (outcome (validate_cidr_ranges (template_of adjacent_entries)) = Ok true ->
    cs = ordered_pairs n /\ List.length cs = (n * (n - 1) / 2)%nat)).
Proof.
  split.
  - exact adjacent_entries_parsed.
  - exact (scan_compares_pairs_in_order
             adjacent_entries adjacent_nets adjacent_entries_parsed).
Defined.

(** C5.  [overlaps] is symmetric. *)
Theorem overlaps_symmetric (a b : IPv4Network) : overlaps a b = overlaps b a.
Proof. apply overlaps_comm. Qed.

(** C6.  A prefix overlaps itself, so two entries carrying the same CIDR
    are reported as overlapping: a template with just these two entries
    prints the overlap of the two labels and returns [False], and any list
    of parsing entries that holds the CIDR twice makes the check fail. *)
Theorem identical_cidrs_overlap (s : string) (P : IPv4Network) :
  IPv4Network_init (PyStr s) = Ok P ->
  overlaps P P = true /\
  (forall l1 l2,
     validate_cidr_ranges (template_of [(l1, s); (l2, s)]) =
     ([Printed MsgValidating; Compared 0 1; Printed (MsgOverlap l1 P l2 P)],
      Ok false)) /\
  (forall entries nets i j l1 l2,
     parsed_as entries nets -> i <> j ->
     nth_error entries i = Some (l1, s) ->
     nth_error entries j = Some (l2, s) ->
     outcome (validate_cidr_ranges (template_of entries)) = Ok false).
Proof.
  intros HP.
  pose proof (overlaps_refl P (IPv4Network_init_wf _ _ HP)) as Hov.
  split; [exact Hov|]. split.
  - intros l1 l2.
    assert (Hp : parsed_as [(l1, s); (l2, s)] [(l1, P); (l2, P)]).
    { repeat constructor; assumption. }
    rewrite (validate_template_of _ _ Hp). simpl. rewrite Hov. reflexivity.
  - intros entries nets i j l1 l2 Hp Hij Hi Hj.
    rewrite (validate_outcome _ _ Hp).
    destruct (all_conflicts nets) as [|c cs] eqn:E; [|reflexivity].
    exfalso. rewrite all_conflicts_nil in E.
    destruct (parsed_as_nth _ _ Hp i _ Hi) as (m1 & Hm1 & _ & Q1).
    destruct (parsed_as_nth _ _ Hp j _ Hj) as (m2 & Hm2 & _ & Q2).
    cbn [fst snd] in Q1, Q2.
    assert (snd m1 = P) by congruence.
    assert (snd m2 = P) by congruence.
    destruct (Nat.lt_total i j) as [Hlt | [Heq | Hgt]]; [| contradiction |].
    + specialize (E i j m1 m2 Hlt Hm1 Hm2). congruence.
    + specialize (E j i m2 m1 Hgt Hm2 Hm1). congruence.
Qed.

Lemma identical_cidrs_overlap_witness :
  IPv4Network_init (PyStr "10.0.1.0/26")
  = Ok (mkIPv4Network 167772416 4294967232 26) /\
  (overlaps (mkIPv4Network 167772416 4294967232 26)
            (mkIPv4Network 167772416 4294967232 26) = true /\
   (forall l1 l2,
      validate_cidr_ranges
        (template_of [(l1, "10.0.1.0/26"); (l2, "10.0.1.0/26")]) =
      ([Printed MsgValidating; Compared 0 1;
        Printed (MsgOverlap l1 (mkIPv4Network 167772416 4294967232 26)
                            l2 (mkIPv4Network 167772416 4294967232 26))],
       Ok false)) /\
   (forall entries nets i j l1 l2,
      parsed_as entries nets -> i <> j ->
      nth_error entries i = Some (l1, "10.0.1.0/26") ->
      nth_error entries j = Some (l2, "10.0.1.0/26") ->
      outcome (validate_cidr_ranges (template_of entries)) = Ok false)).
Proof.
  split.
  - reflexivity.
  - exact (identical_cidrs_overlap "10.0.1.0/26"
             (mkIPv4Network 167772416 4294967232 26) eq_refl).
Defined.

(** C7.  The adjacent prefixes 10.0.0.0/26 and 10.0.0.64/26 parse, do not
    overlap (in either order), and a template holding exactly these two
    subnets passes the check after one comparison. *)
Theorem adjacent_prefixes_disjoint :
  exists a b,
    IPv4Network_init (PyStr "10.0.0.0/26") = Ok a /\
    IPv4Network_init (PyStr "10.0.0.64/26") = Ok b /\
    range_end a + 1 = range_start b /\
    overlaps a b = false /\ overlaps b a = false /\
    forall l1 l2,
      validate_cidr_ranges
        (template_of [(l1, "10.0.0.0/26"); (l2, "10.0.0.64/26")])
      = ([Printed MsgValidating; Compared 0 1; Printed MsgValid], Ok true).
Proof.
  eexists. eexists.
  split; [vm_compute; reflexivity|].
  split; [vm_compute; reflexivity|].
  split; [vm_compute; reflexivity|].
  split; [vm_compute; reflexivity|].
  split; [vm_compute; reflexivity|].
  intros l1 l2. vm_compute. reflexivity.
Qed.

(** C8.  The prefix 10.0.0.0/26 lies strictly inside 10.0.0.0/24; the two
    are reported as overlapping (in either order), and a template holding
    exactly these two subnets fails the check with the overlap report. *)
Theorem contained_prefix_overlaps :
  exists a b,
    IPv4Network_init (PyStr "10.0.0.0/24") = Ok a /\
    IPv4Network_init (PyStr "10.0.0.0/26") = Ok b /\
    (range_start a <= range_start b /\ range_end b < range_end a) /\
    overlaps a b = true /\ overlaps b a = true /\
    forall l1 l2,
      validate_cidr_ranges
        (template_of [(l1, "10.0.0.0/24"); (l2, "10.0.0.0/26")])
      = ([Printed MsgValidating; Compared 0 1; Printed (MsgOverlap l1 a l2 b)],
         Ok false).
Proof.
  eexists. eexists.
  split; [vm_compute; reflexivity|].
  split; [vm_compute; reflexivity|].
  split; [vm_compute; split; [discriminate | reflexivity]|].
  split; [vm_compute; reflexivity|].
  split; [vm_compute; reflexivity|].
  intros l1 l2. vm_compute. reflexivity.
Qed.

(** C9.  On an empty list of labelled prefixes the check makes no
    comparison, reports no conflict, raises nothing and returns [True];
    the same holds when the template has no [Resources] section at all. *)
Theorem empty_input_succeeds :
  validate_cidr_ranges (template_of [])
  = ([Printed MsgValidating; Printed MsgValid], Ok true) /\
  validate_cidr_ranges (PyDict [])
  = ([Printed MsgValidating; Printed MsgValid], Ok true) /\
  reported_conflicts (printed (fst (validate_cidr_ranges (template_of [])))) = [] /\
  comparisons (fst (validate_cidr_ranges (template_of []))) = [].
Proof.
  repeat split.
Qed.

(** C10.  Only mappings of [Type] 'AWS::EC2::Subnet' whose [Properties]
    hold a non-empty [CidrBlock] take part in the overlap validation: any
    other resource of the template can be removed without changing what
    the run prints, compares or returns.  In particular a VPC resource is
    passed over whatever its [CidrBlock] is, and the /22 block of a VPC
    that overlaps one of its subnets is not reported. *)
Theorem only_subnets_considered :
  (forall pre name resource post,
     resource_shaped resource = true -> considered resource = false ->
     validate_cidr_ranges (template_with (pre ++ (name, resource) :: post)) =
     validate_cidr_ranges (template_with (pre ++ post))) /\
  (forall pre name cidr post,
     validate_cidr_ranges (template_with (pre ++ (name, vpc_resource cidr) :: post)) =
     validate_cidr_ranges (template_with (pre ++ post))) /\
  (exists vpc subnet,
     IPv4Network_init (PyStr "10.0.0.0/22") = Ok vpc /\
     IPv4Network_init (PyStr "10.0.0.0/26") = Ok subnet /\
     overlaps vpc subnet = true /\
     validate_cidr_ranges
       (template_with
          [("VPC1", vpc_resource (PyStr "10.0.0.0/22"));
           ("VPC1PublicSubnet1", subnet_resource (PyStr "10.0.0.0/26"))])
     = ([Printed MsgValidating; Printed MsgValid], Ok true)).
Proof.
  assert (Hgen : forall pre name resource post,
     resource_shaped resource = true -> considered resource = false ->
     validate_cidr_ranges (template_with (pre ++ (name, resource) :: post)) =
     validate_cidr_ranges (template_with (pre ++ post))).
  { intros pre name resource post Hs Hc.
    apply validate_resources_congr, collect_loop_congr.
    intros acc. apply collect_loop_skip; assumption. }
  split; [exact Hgen|]. split.
  - intros pre name cidr post. apply Hgen; reflexivity.
  - eexists. eexists.
    split; [vm_compute; reflexivity|].
    split; [vm_compute; reflexivity|].
    split; vm_compute; reflexivity.
Qed.

Lemma only_subnets_considered_witness :
  resource_shaped (PyDict [("Type", PyStr "AWS::EC2::InternetGateway")]) = true /\
  considered (PyDict [("Type", PyStr "AWS::EC2::InternetGateway")]) = false /\
  validate_cidr_ranges
    (template_with
       ([("S1", subnet_resource (PyStr "10.0.0.0/26"))] ++
        ("VPC1InternetGateway",
         PyDict [("Type", PyStr "AWS::EC2::InternetGateway")]) ::
        [("S2", subnet_resource (PyStr "10.0.0.64/26"))])) =
  validate_cidr_ranges
    (template_with
       ([("S1", subnet_resource (PyStr "10.0.0.0/26"))] ++
        [("S2", subnet_resource (PyStr "10.0.0.64/26"))])).
Proof.
  split; [reflexivity|]. split; [reflexivity|].
  apply (proj1 only_subnets_considered); reflexivity.
Defined.

(** * Further properties: the structure tests and the runner *)

Example reference_template_passes :
  snd (run_all_tests "vpc-infrastructure.yaml" reference_template) = true /\
  exit_status reference_template = 0.
Proof. split; vm_compute; reflexivity. Qed.

Example empty_file_fails :
  map (fun tc => snd (snd tc PyNone)) tests =
  [Failed TypeError; Failed (Exn AttributeError); Failed (Exn AttributeError);
   Failed (Exn AttributeError); Failed (Exn AttributeError);
   Failed (Exn AttributeError); Failed (Exn AttributeError);
   Failed (Exn AttributeError); Failed (Exn AttributeError);
   Failed (Exn AttributeError)] /\
  exit_status PyNone = 1.
Proof. split; vm_compute; reflexivity. Qed.

(** ** The runner *)

Lemma tests_loop_closed (template : pyval) (ts : list test_case) :
  forall all_passed,
    tests_loop ts template all_passed =
    (flat_map (transcript template) ts,
     (all_passed && forallb (passes template) ts)%bool).
Proof.
  induction ts as [|[name test_fn] ts IH]; intros all_passed.
  - simpl. rewrite andb_true_r. reflexivity.
  - cbn [tests_loop flat_map forallb]. unfold transcript at 1, passes at 1.
    cbn [fst snd].
    destruct (test_fn template) as [out [[|]|e]]; cbn [fst snd negb];
      rewrite IH; cbn [app]; rewrite <- ?app_assoc; cbn [app];
      rewrite ?andb_false_r; destruct all_passed; reflexivity.
Qed.

Lemma passes_structure_case name (t : pyval -> test bool) template :
  passes template (structure_case name t) = true <-> snd (t template) = Done true.
Proof.
  unfold passes, structure_case. cbn [fst snd].
  destruct (snd (t template)) as [[|]|e]; split; intros H;
    try reflexivity; discriminate.
Qed.

Lemma passes_cidr_case template :
  passes template cidr_case = true <-> snd (validate_cidr_ranges template) = Ok true.
Proof.
  unfold passes, cidr_case. cbn [fst snd].
  destruct (snd (validate_cidr_ranges template)) as [[|]|e]; split; intros H;
    try reflexivity; discriminate.
Qed.

(** X1.  [run_all_tests] runs every one of the ten tests, whatever the
    earlier ones printed, returned or raised: its output is the banner,
    then for each test in order the test's own lines, an error line if it
    raised, and a blank line, then the verdict.  It returns [True], and the
    script exits with status 0, exactly when each of the ten tests returns
    [True]. *)
Theorem run_all_tests_runs_every_test (template_path : string) (template : pyval) :
  fst (run_all_tests template_path template) =
    ([Banner; TemplateLine template_path; Blank] ++
     flat_map (transcript template) tests ++
     [if snd (run_all_tests template_path template) then AllPassed else SomeFailed])%list
  /\
  (snd (run_all_tests template_path template) = true <->
   snd (test_template_structure template) = Done true /\
   snd (test_vpc_configuration template) = Done true /\
   snd (test_subnet_configuration template) = Done true /\
   snd (test_transit_gateway template) = Done true /\
   snd (test_vpc_endpoints template) = Done true /\
   snd (test_security_groups template) = Done true /\
   snd (test_ec2_instances template) = Done true /\
   snd (test_networking_components template) = Done true /\
   snd (test_outputs template) = Done true /\
   snd (validate_cidr_ranges template) = Ok true)
  /\
  (exit_status template = 0 <->
   snd (run_all_tests "vpc-infrastructure.yaml" template) = true).
Proof.
  unfold exit_status, run_all_tests.
  rewrite !tests_loop_closed. cbn [fst snd andb].
  split; [reflexivity|]. split.
  - unfold tests. cbn [forallb].
    rewrite !andb_true_iff, !passes_structure_case, passes_cidr_case.
    tauto.
  - destruct (forallb (passes template) tests); split; intros H;
      try reflexivity; discriminate.
Qed.

(** ** Which exceptions the tests can raise *)




























(** ** What the structure tests check *)

Lemma tbind_done {A B : Type} (a : A) (k : A -> test B) :
  tbind (tlift (Done a)) k = k a.
Proof.
  unfold tbind, tlift. destruct (k a) as [out r]. reflexivity.
Qed.

Lemma tbind_say {B : Type} (m : report) (k : unit -> test B) :
  tbind (say m) k = (m :: fst (k tt), snd (k tt)).
Proof.
  unfold tbind, say. destruct (k tt) as [out r]. reflexivity.
Qed.

Lemma first_missing_none d names :
  first_missing d names = None <-> forallb (has_key d) names = true.
Proof.
  unfold first_missing. induction names as [|n rest IH]; cbn [find forallb].
  - tauto.
  - destruct (has_key d n); cbn [negb andb]; [exact IH|].
    split; discriminate.
Qed.

Lemma first_missing_some d names n :
  first_missing d names = Some n -> forallb (has_key d) names = false.
Proof.
  intros H. destruct (forallb (has_key d) names) eqn:E; [|reflexivity].
  apply first_missing_none in E. congruence.
Qed.

Lemma first_missing_app d l1 l2 :
  first_missing d (l1 ++ l2) =
  match first_missing d l1 with
  | Some n => Some n
  | None => first_missing d l2
  end.
Proof.
  unfold first_missing. induction l1 as [|n rest IH]; cbn [Datatypes.app find].
  - reflexivity.
  - destruct (negb (has_key d n)); [reflexivity | exact IH].
Qed.

(** The presence loop on a mapping: it reports the first missing name. *)
Lemma require_loop_dict names d missing :
  require_loop names (PyDict d) missing =
  match first_missing d names with
  | Some n => ([missing n], Done (Return false))
  | None => ([], Done (Continue tt))
  end.
Proof.
  unfold first_missing. induction names as [|n rest IH]; cbn [require_loop find].
  - reflexivity.
  - cbn [py_in]. rewrite tbind_done. fold (has_key d n).
    destruct (has_key d n); cbn [negb]; [exact IH | reflexivity].
Qed.

Lemma test_template_structure_dict (d : list (string * pyval)) :
  test_template_structure (PyDict d) =
  (RStructureStart ::
   match first_missing d required_sections with
   | Some section => [RMissingSection section]
   | None => [RStructureOk]
   end,
   Done (forallb (has_key d) required_sections)).
Proof.
  unfold test_template_structure.
  rewrite tbind_say, require_loop_dict.
  destruct (first_missing d required_sections) as [n|] eqn:E.
  - rewrite (first_missing_some _ _ _ E). reflexivity.
  - apply first_missing_none in E. rewrite E. reflexivity.
Qed.

(** X4.  On a template that is a mapping, [test_template_structure]
    returns [True] exactly when each of the five required sections is a key
    of the template; otherwise it prints one failure line, naming the first
    missing section in the order AWSTemplateFormatVersion, Description,
    Parameters, Resources, Outputs, and returns [False].  It never looks
    at the values of the sections. *)
Theorem test_template_structure_checks_keys (d : list (string * pyval)) :
  test_template_structure (PyDict d) =
  (RStructureStart ::
   match first_missing d required_sections with
   | Some section => [RMissingSection section]
   | None => [RStructureOk]
   end,
   Done (forallb (has_key d) required_sections))
  /\
  (first_missing d required_sections = None <->
   forallb (has_key d) required_sections = true).
Proof.
  split; [apply test_template_structure_dict | apply first_missing_none].
Qed.

Lemma snd_tbind_say {B : Type} (m : report) (k : unit -> test B) :
  snd (tbind (say m) k) = snd (k tt).
Proof. rewrite tbind_say. reflexivity. Qed.

Lemma snd_guard (b : bool) (m : report) (rest : test bool) :
  snd (if negb b then tbind (say m) (fun _ => tret false) else rest) =
  if b then snd rest else Done false.
Proof. destruct b; reflexivity. Qed.

Lemma snd_require_then d names missing (rest : test bool) :
  snd (tbind (require_loop names (PyDict d) missing) (fun r => finish r rest)) =
  if forallb (has_key d) names then snd rest else Done false.
Proof.
  rewrite require_loop_dict.
  destruct (first_missing d names) as [n|] eqn:E.
  - rewrite (first_missing_some _ _ _ E). reflexivity.
  - apply first_missing_none in E. rewrite E.
    cbn [tbind finish]. destruct rest as [out r]. reflexivity.
Qed.

Lemma get_section_present t section v :
  dict_get t section = Some v ->
  get_section (PyDict t) section = tlift (Done v).
Proof.
  intros H. unfold get_section. cbn [py_get]. rewrite H. reflexivity.
Qed.

(** X5.  On a template whose [Resources] (for [test_outputs]: whose
    [Outputs]) is a mapping, the three presence tests return [True]
    exactly when every name they require is a key of that mapping:
    the transit gateway, its two attachments and the four inter-VPC
    routes; the two internet gateways, four NAT gateways and six route
    tables; the seven outputs.  The values under these keys are not
    looked at. *)
Theorem presence_tests_check_keys (t : list (string * pyval)) :
  (forall rs, dict_get t "Resources" = Some (PyDict rs) ->
     snd (test_transit_gateway (PyDict t)) =
       Done (forallb (has_key rs)
               ("TransitGateway" :: required_attachments ++ required_routes)) /\
     snd (test_networking_components (PyDict t)) =
       Done (forallb (has_key rs)
               (required_igws ++ required_nats ++ required_rts))) /\
  (forall outputs, dict_get t "Outputs" = Some (PyDict outputs) ->
     snd (test_outputs (PyDict t)) =
       Done (forallb (has_key outputs) required_outputs)).
Proof.
  split.
  - intros rs H. split.
    + unfold test_transit_gateway.
      rewrite snd_tbind_say, (get_section_present _ _ _ H), tbind_done.
      cbn [py_in]. rewrite tbind_done. fold (has_key rs "TransitGateway").
      rewrite snd_guard.
      cbn [forallb]. rewrite forallb_app.
      destruct (has_key rs "TransitGateway"); [|reflexivity].
      rewrite snd_require_then.
      destruct (forallb (has_key rs) required_attachments); [|reflexivity].
      rewrite snd_require_then.
      destruct (forallb (has_key rs) required_routes); reflexivity.
    + unfold test_networking_components.
      rewrite snd_tbind_say, (get_section_present _ _ _ H), tbind_done.
      rewrite !forallb_app.
      rewrite snd_require_then.
      destruct (forallb (has_key rs) required_igws); [|reflexivity].
      rewrite snd_require_then.
      destruct (forallb (has_key rs) required_nats); [|reflexivity].
      rewrite snd_require_then.
      destruct (forallb (has_key rs) required_rts); reflexivity.
  - intros outputs H. unfold test_outputs.
    rewrite snd_tbind_say, (get_section_present _ _ _ H), tbind_done.
    rewrite snd_require_then.
    destruct (forallb (has_key outputs) required_outputs); reflexivity.
Qed.

Lemma presence_tests_check_keys_witness :
  dict_get
    [("Resources", PyDict [("TransitGateway", PyNone)]); ("Outputs", PyDict [])]
    "Resources" = Some (PyDict [("TransitGateway", PyNone)]) /\
  snd (test_transit_gateway
         (PyDict [("Resources", PyDict [("TransitGateway", PyNone)]);
                  ("Outputs", PyDict [])])) =
  Done (forallb (has_key [("TransitGateway", PyNone)])
          ("TransitGateway" :: required_attachments ++ required_routes)).
Proof.
  split; [reflexivity|].
  apply (proj1 (presence_tests_check_keys
                  [("Resources", PyDict [("TransitGateway", PyNone)]);
                   ("Outputs", PyDict [])])).
  reflexivity.
Defined.

Lemma snd_typed_then rs names type_name missing wrong (rest : test bool) :
  (forall n v, In n names -> dict_get rs n = Some v -> exists r, v = PyDict r) ->
  snd (tbind (require_typed_loop names (PyDict rs) type_name missing wrong)
         (fun r => finish r rest)) =
  if forallb (fun n => has_type rs n type_name) names then snd rest else Done false.
Proof.
  induction names as [|n names IH]; intros Hmap.
  - cbn [require_typed_loop forallb tbind tret finish].
    destruct rest as [out r]. reflexivity.
  - cbn [require_typed_loop forallb py_in]. rewrite tbind_done.
    unfold has_type at 1.
    destruct (dict_get rs n) as [v|] eqn:E; cbn [negb].
    + destruct (Hmap n v (or_introl eq_refl) E) as [r ->].
      cbn [py_getitem]. rewrite E, tbind_done. cbn [py_get].
      destruct (dict_get r "Type") as [ty|]; cbn [of_result]; rewrite tbind_done.
      * destruct (py_eq_str ty type_name); cbn [negb andb].
        -- apply IH. intros n' v' Hin. apply Hmap. right. exact Hin.
        -- reflexivity.
      * cbn [py_eq_str negb andb]. reflexivity.
    + reflexivity.
Qed.

(** X6.  On a template whose [Resources] is a mapping in which the
    required endpoints and instances, where present, are mappings:
    [test_vpc_endpoints] returns [True] exactly when each of the six
    endpoints is present with [Type] 'AWS::EC2::VPCEndpoint', and
    [test_ec2_instances] exactly when both instances are present with
    [Type] 'AWS::EC2::Instance' and the keys EC2SSMRole and
    EC2InstanceProfile exist. *)
Theorem typed_tests_check_types (t rs : list (string * pyval)) :
  dict_get t "Resources" = Some (PyDict rs) ->
  (forall n v, In n (required_endpoints ++ required_instances) ->
     dict_get rs n = Some v -> exists r, v = PyDict r) ->
  snd (test_vpc_endpoints (PyDict t)) =
    Done (forallb (fun n => has_type rs n "AWS::EC2::VPCEndpoint") required_endpoints)
  /\
  snd (test_ec2_instances (PyDict t)) =
    Done (forallb (fun n => has_type rs n "AWS::EC2::Instance") required_instances
          && has_key rs "EC2SSMRole" && has_key rs "EC2InstanceProfile")%bool.
Proof.
  intros H Hmap. split.
  - unfold test_vpc_endpoints.
    rewrite snd_tbind_say, (get_section_present _ _ _ H), tbind_done.
    rewrite snd_typed_then.
    + destruct (forallb _ required_endpoints); reflexivity.
    + intros n v Hin. apply Hmap. apply in_or_app. left. exact Hin.
  - unfold test_ec2_instances.
    rewrite snd_tbind_say, (get_section_present _ _ _ H), tbind_done.
    rewrite snd_typed_then.
    + destruct (forallb _ required_instances); [|reflexivity].
      cbn [py_in andb]. rewrite tbind_done. fold (has_key rs "EC2SSMRole").
      rewrite snd_guard.
      destruct (has_key rs "EC2SSMRole"); [|reflexivity].
      rewrite tbind_done. fold (has_key rs "EC2InstanceProfile").
      rewrite snd_guard.
      destruct (has_key rs "EC2InstanceProfile"); reflexivity.
    + intros n v Hin. apply Hmap. apply in_or_app. right. exact Hin.
Qed.

Lemma typed_tests_check_types_witness :
  snd (test_vpc_endpoints reference_template) =
    Done (forallb (fun n => has_type reference_resources n "AWS::EC2::VPCEndpoint")
            required_endpoints)
  /\
  snd (test_ec2_instances reference_template) =
    Done (forallb (fun n => has_type reference_resources n "AWS::EC2::Instance")
            required_instances
          && has_key reference_resources "EC2SSMRole"
          && has_key reference_resources "EC2InstanceProfile")%bool.
Proof.
  apply (typed_tests_check_types _ reference_resources).
  - reflexivity.
  - intros n v Hin.
    cbn in Hin.
    repeat (destruct Hin as [<- | Hin];
            [intros E; vm_compute in E; inversion E; eexists; reflexivity|]).
    destruct Hin.
Defined.

Lemma dict_get_In d key v : dict_get d key = Some v -> In (key, v) d.
Proof.
  induction d as [|[k x] d IH]; cbn [dict_get]; [discriminate|].
  destruct (String.eqb_spec k key) as [-> | Hne].
  - intros H. inversion H. left. reflexivity.
  - intros H. right. apply IH. exact H.
Qed.

Lemma shaped_entry rs key v :
  resources_shaped rs -> dict_get rs key = Some v -> resource_shaped v = true.
Proof.
  intros Hs Hg. apply dict_get_In in Hg.
  unfold resources_shaped in Hs. rewrite Forall_forall in Hs.
  exact (Hs (key, v) Hg).
Qed.

(** Reading [Properties.CidrBlock] off a resource in mapping shape. *)
Lemma shaped_cidr_block {B : Type} v (k : pyval -> test B) :
  resource_shaped v = true ->
  tbind (tlift (of_result (py_get v "Properties" (PyDict []))))
    (fun props => tbind (tlift (of_result (py_get props "CidrBlock" PyNone))) k)
  = k (cidr_block v).
Proof.
  intros Hs. destruct v as [ | | | | | d]; try discriminate.
  cbn [resource_shaped py_get cidr_block] in *.
  destruct (dict_get d "Properties") as [[ | | | | | p]|]; try discriminate;
    cbn [of_result]; rewrite tbind_done; cbn [py_get dict_get].
  - destruct (dict_get p "CidrBlock"); cbn [of_result]; rewrite tbind_done;
      reflexivity.
  - cbn [of_result]. rewrite tbind_done. reflexivity.
Qed.

Lemma snd_subnet_loop rs subnets :
  resources_shaped rs ->
  snd (subnet_loop subnets (PyDict rs)) =
  Done (if forallb (fun e => cidr_is rs (fst e) (snd e)) subnets
        then Continue tt else Return false).
Proof.
  intros Hs. induction subnets as [|[name cidr] rest IH].
  - reflexivity.
  - cbn [subnet_loop forallb fst snd py_in]. rewrite tbind_done.
    unfold cidr_is at 1.
    destruct (dict_get rs name) as [v|] eqn:E; cbn [negb].
    + cbn [py_getitem]. rewrite E, tbind_done.
      rewrite (shaped_cidr_block v _ (shaped_entry _ _ _ Hs E)).
      destruct (py_eq_str (cidr_block v) cidr); cbn [negb andb];
        [exact IH | reflexivity].
    + reflexivity.
Qed.

Lemma snd_vpc_loop rs vpcs :
  resources_shaped rs ->
  snd (vpc_loop vpcs (PyDict rs)) =
  Done (if forallb (fun e => cidr_is rs (fst e) (snd e)) (flat_map snd vpcs)
        then Continue tt else Return false).
Proof.
  intros Hs. induction vpcs as [|[vpc subnets] rest IH].
  - reflexivity.
  - cbn [vpc_loop flat_map snd]. rewrite forallb_app.
    pose proof (snd_subnet_loop rs subnets Hs) as Hsub.
    destruct (subnet_loop subnets (PyDict rs)) as [out r].
    cbn [snd] in Hsub. subst r. cbn [tbind].
    destruct (forallb _ subnets); cbn [andb].
    + destruct (vpc_loop rest (PyDict rs)) as [out' r']. exact IH.
    + reflexivity.
Qed.

Lemma snd_test_subnet_configuration (t rs : list (string * pyval)) :
  dict_get t "Resources" = Some (PyDict rs) ->
  resources_shaped rs ->
  snd (test_subnet_configuration (PyDict t)) =
    Done (forallb (fun e => cidr_is rs (fst e) (snd e)) expected_list).
Proof.
  intros H Hs. unfold test_subnet_configuration.
  rewrite snd_tbind_say, (get_section_present _ _ _ H), tbind_done.
  pose proof (snd_vpc_loop rs expected_subnets Hs) as Hv.
  fold expected_list in Hv.
  destruct (vpc_loop expected_subnets (PyDict rs)) as [out r].
  cbn [snd] in Hv. subst r. cbn [tbind].
  destruct (forallb _ expected_list); reflexivity.
Qed.


Lemma reference_resources_shaped : resources_shaped reference_resources.
Proof.
  unfold resources_shaped. rewrite Forall_forall.
  intros item Hin. vm_compute in Hin.
  repeat (destruct Hin as [<- | Hin]; [reflexivity|]).
  destruct Hin.
Qed.


(** ** The expected subnets and the overlap check *)

Lemma dict_get_NoDup d key v :
  NoDup (map fst d) -> In (key, v) d -> dict_get d key = Some v.
Proof.
  induction d as [|[k x] d IH]; cbn [map fst dict_get In]; [tauto|].
  intros Hnd Hin. inversion Hnd as [|? ? Hk Hd]; subst.
  destruct Hin as [Heq | Hin].
  - inversion Heq; subst. rewrite String.eqb_refl. reflexivity.
  - destruct (String.eqb_spec k key) as [-> | Hne].
    + exfalso. apply Hk. apply in_map_iff. exists (key, v). tauto.
    + apply IH; assumption.
Qed.

Lemma py_eq_str_true v lit : py_eq_str v lit = true -> v = PyStr lit.
Proof.
  destruct v; cbn [py_eq_str]; try discriminate.
  intros H. apply String.eqb_eq in H. congruence.
Qed.

Lemma collect_loop_considered name resource network rest acc :
  considered resource = true ->
  IPv4Network_init (cidr_block resource) = Ok network ->
  collect_loop ((name, resource) :: rest) acc =
  collect_loop rest (acc ++ [(name, network)])%list.
Proof.
  intros Hc Hp. destruct resource as [ | | | | | d]; try discriminate.
  cbn [considered cidr_block] in Hc, Hp.
  cbn [collect_loop py_get].
  destruct (dict_get d "Type") as [ty|]; [|discriminate].
  destruct (dict_get d "Properties") as [[ | | | | | p]|]; try discriminate.
  apply andb_true_iff in Hc. destruct Hc as [Hty Hcidr].
  rewrite bind_lift_ok, Hty, bind_lift_ok. cbn [py_get].
  destruct (dict_get p "CidrBlock") as [cidr|]; [|discriminate].
  rewrite bind_lift_ok, Hcidr, Hp. reflexivity.
Qed.

Lemma collect_loop_gathered items :
  resources_shaped items ->
  (forall n r, In (n, r) items -> considered r = true ->
     exists network, IPv4Network_init (cidr_block r) = Ok network) ->
  forall acc,
    collect_loop items acc = ([], Ok (Continue (acc ++ gathered items)%list)).
Proof.
  induction 1 as [|[name resource] rest Hs Hrest IH]; intros Hparse acc.
  - cbn. rewrite app_nil_r. reflexivity.
  - cbn [snd] in Hs. cbn [gathered].
    assert (Hrest' : forall n r, In (n, r) rest -> considered r = true ->
                       exists network, IPv4Network_init (cidr_block r) = Ok network).
    { intros n r Hin. apply (Hparse n r). right. exact Hin. }
    destruct (considered resource) eqn:Hc.
    + destruct (Hparse name resource (or_introl eq_refl) Hc) as [network Hn].
      rewrite (collect_loop_considered _ _ _ _ _ Hc Hn), Hn.
      rewrite (IH Hrest'), <- app_assoc. reflexivity.
    + rewrite (collect_loop_skip _ _ _ _ Hs Hc). apply IH. exact Hrest'.
Qed.

Lemma gathered_In items n network :
  In (n, network) (gathered items) ->
  exists r, In (n, r) items /\ considered r = true /\
            IPv4Network_init (cidr_block r) = Ok network.
Proof.
  induction items as [|[name resource] rest IH]; cbn [gathered]; [intros []|].
  destruct (considered resource) eqn:Hc.
  - destruct (IPv4Network_init (cidr_block resource)) as [net|e] eqn:Hp.
    + intros [Heq | Hin].
      * inversion Heq; subst. exists resource. split; [left; reflexivity | tauto].
      * destruct (IH Hin) as (r & H1 & H2). exists r. split; [right|]; assumption.
    + intros Hin. destruct (IH Hin) as (r & H1 & H2).
      exists r. split; [right|]; assumption.
  - intros Hin. destruct (IH Hin) as (r & H1 & H2).
    exists r. split; [right|]; assumption.
Qed.

Lemma gathered_NoDup items :
  NoDup (map fst items) -> NoDup (map fst (gathered items)).
Proof.
  induction items as [|[name resource] rest IH]; cbn [gathered map fst].
  - intros _. constructor.
  - intros Hnd. inversion Hnd as [|? ? Hk Hd]; subst.
    destruct (considered resource); [|apply IH; exact Hd].
    destruct (IPv4Network_init (cidr_block resource)); [|apply IH; exact Hd].
    cbn [map fst]. constructor; [|apply IH; exact Hd].
    intros Hin. apply in_map_iff in Hin. destruct Hin as ([n net] & Hn & Hin).
    cbn [fst] in Hn. subst n.
    destruct (gathered_In _ _ _ Hin) as (r & Hr & _).
    apply Hk. apply in_map_iff. exists (name, r). tauto.
Qed.

Lemma conflicts_with_none name1 net1 rest :
  Forall (fun b => overlaps net1 (snd b) = false) rest ->
  conflicts_with name1 net1 rest = [].
Proof.
  induction 1 as [|[name2 net2] rest H Hrest IH]; cbn [conflicts_with].
  - reflexivity.
  - cbn [snd] in H. rewrite H. exact IH.
Qed.

Lemma all_conflicts_distinct l :
  NoDup (map fst l) ->
  (forall a b, In a l -> In b l -> fst a <> fst b ->
     overlaps (snd a) (snd b) = false) ->
  all_conflicts l = [].
Proof.
  induction l as [|[name1 net1] rest IH]; cbn [all_conflicts map fst].
  - reflexivity.
  - intros Hnd Hdis. inversion Hnd as [|? ? Hk Hd]; subst.
    rewrite conflicts_with_none, IH.
    + reflexivity.
    + exact Hd.
    + intros a b Ha Hb. apply Hdis; right; assumption.
    + apply Forall_forall. intros b Hb.
      apply (Hdis (name1, net1) b); [left; reflexivity | right; exact Hb|].
      cbn [fst]. intros Heq. apply Hk. apply in_map_iff. exists b.
      split; [symmetry; exact Heq | exact Hb].
Qed.

(** The expected CIDRs all parse and are disjoint from one another. *)
Lemma expected_table_check :
  forallb
    (fun e1 =>
       forallb
         (fun e2 =>
            String.eqb (fst e1) (fst e2) ||
            match IPv4Network_init (PyStr (snd e1)),
                  IPv4Network_init (PyStr (snd e2)) with
            | Ok a, Ok b => negb (overlaps a b)
            | _, _ => false
            end)%bool
         expected_list &&
       match IPv4Network_init (PyStr (snd e1)) with
       | Ok _ => true
       | Raise _ => false
       end)%bool
    expected_list = true.
Proof. vm_compute. reflexivity. Qed.

Lemma expected_parse e :
  In e expected_list -> exists network, IPv4Network_init (PyStr (snd e)) = Ok network.
Proof.
  intros Hin. pose proof expected_table_check as T.
  rewrite forallb_forall in T. specialize (T e Hin).
  apply andb_true_iff in T. destruct T as [_ T].
  destruct (IPv4Network_init (PyStr (snd e))) as [network|]; [|discriminate].
  exists network. reflexivity.
Qed.

Lemma expected_disjoint e1 e2 a b :
  In e1 expected_list -> In e2 expected_list -> fst e1 <> fst e2 ->
  IPv4Network_init (PyStr (snd e1)) = Ok a ->
  IPv4Network_init (PyStr (snd e2)) = Ok b ->
  overlaps a b = false.
Proof.
  intros H1 H2 Hne Pa Pb. pose proof expected_table_check as T.
  rewrite forallb_forall in T. specialize (T e1 H1).
  apply andb_true_iff in T. destruct T as [T _].
  rewrite forallb_forall in T. specialize (T e2 H2).
  rewrite Pa, Pb in T.
  apply orb_true_iff in T. destruct T as [T | T].
  - apply String.eqb_eq in T. contradiction.
  - apply negb_true_iff in T. exact T.
Qed.

Lemma validate_gathered t rs :
  dict_get t "Resources" = Some (PyDict rs) ->
  collect_loop rs [] = ([], Ok (Continue (gathered rs))) ->
  all_conflicts (gathered rs) = [] ->
  snd (validate_cidr_ranges (PyDict t)) = Ok true.
Proof.
  intros H Hc Hnil. unfold validate_cidr_ranges.
  cbn [py_get]. rewrite H. cbn [print emit bind].
  rewrite bind_lift_ok. cbn [py_items]. rewrite bind_lift_ok, Hc.
  cbn [bind].
  pose proof (outer_loop_outcome (gathered rs) 0) as Ho.
  rewrite Hnil in Ho. unfold outcome in Ho.
  destruct (outer_loop (gathered rs) 0) as [out r]. cbn [snd] in Ho. subst r.
  reflexivity.
Qed.

(** X8.  The subnet test and the overlap check compose: on a template
    whose [Resources] is a mapping (with distinct keys) of resources in
    mapping shape, if [test_subnet_configuration] returns [True] and the
    only resources that take part in the overlap check are among the
    twelve expected subnets, then [validate_cidr_ranges] returns [True]:
    the expected CIDRs all parse and are pairwise disjoint. *)
Theorem expected_subnets_pass_overlap_check (t rs : list (string * pyval)) :
  dict_get t "Resources" = Some (PyDict rs) ->
  NoDup (map fst rs) ->
  resources_shaped rs ->
  snd (test_subnet_configuration (PyDict t)) = Done true ->
  (forall n r, In (n, r) rs -> considered r = true ->
     In n (map fst expected_list)) ->
  snd (validate_cidr_ranges (PyDict t)) = Ok true.
Proof.
  intros H Hnd Hs Htest Honly.
  rewrite (snd_test_subnet_configuration t rs H Hs) in Htest.
  assert (Hall : forallb (fun e => cidr_is rs (fst e) (snd e)) expected_list = true)
    by congruence.
  rewrite forallb_forall in Hall.
  assert (Hcidr : forall n r, In (n, r) rs -> considered r = true ->
            exists e, In e expected_list /\ fst e = n /\
                      cidr_block r = PyStr (snd e)).
  { intros n r Hin Hc.
    specialize (Honly n r Hin Hc). apply in_map_iff in Honly.
    destruct Honly as (e & He & Hine). exists e. split; [exact Hine|].
    split; [exact He|].
    specialize (Hall e Hine). unfold cidr_is in Hall.
    rewrite He, (dict_get_NoDup _ _ _ Hnd Hin) in Hall.
    apply py_eq_str_true. exact Hall. }
  assert (Hcollect : collect_loop rs [] = ([], Ok (Continue (gathered rs)))).
  { apply (collect_loop_gathered rs Hs).
    intros n r Hin Hc.
    destruct (Hcidr n r Hin Hc) as (e & Hine & _ & ->).
    apply expected_parse. exact Hine. }
  apply (validate_gathered t rs H Hcollect).
  apply all_conflicts_distinct.
  - apply gathered_NoDup. exact Hnd.
  - intros [n1 net1] [n2 net2] H1 H2 Hne. cbn [fst snd] in *.
    destruct (gathered_In _ _ _ H1) as (r1 & Hr1 & Hc1 & Hp1).
    destruct (gathered_In _ _ _ H2) as (r2 & Hr2 & Hc2 & Hp2).
    destruct (Hcidr n1 r1 Hr1 Hc1) as (e1 & He1 & Hn1 & Hb1).
    destruct (Hcidr n2 r2 Hr2 Hc2) as (e2 & He2 & Hn2 & Hb2).
    rewrite Hb1 in Hp1. rewrite Hb2 in Hp2.
    apply (expected_disjoint e1 e2 net1 net2 He1 He2); try assumption.
    congruence.
Qed.

Lemma reference_resources_NoDup : NoDup (map fst reference_resources).
Proof.
  vm_compute.
  repeat (constructor;
          [cbn [In]; intros H;
           repeat (destruct H as [H | H]; [discriminate|]); exact H|]).
  constructor.
Qed.

Lemma reference_resources_subnets :
  forall n r, In (n, r) reference_resources -> considered r = true ->
    In n (map fst expected_list).
Proof.
  intros n r Hin Hc. vm_compute in Hin.
  repeat (destruct Hin as [Heq | Hin];
          [inversion Heq; subst;
           first [discriminate Hc | vm_compute; tauto]|]).
  destruct Hin.
Qed.

Lemma expected_subnets_pass_overlap_check_witness :
  snd (validate_cidr_ranges reference_template) = Ok true.
Proof.
  apply (expected_subnets_pass_overlap_check _ reference_resources).
  - reflexivity.
  - exact reference_resources_NoDup.
  - exact reference_resources_shaped.
  - vm_compute. reflexivity.
  - exact reference_resources_subnets.
Defined.

(** ** The overlap check and the order of the resources *)

Lemma conflicts_with_nil_iff name1 net1 rest :
  conflicts_with name1 net1 rest = [] <->
  Forall (fun b => overlaps net1 (snd b) = false) rest.
Proof.
  split; [|apply conflicts_with_none].
  induction rest as [|[name2 net2] rest IH]; cbn [conflicts_with].
  - constructor.
  - destruct (overlaps net1 net2) eqn:E; [discriminate|].
    intros H. constructor; [exact E | apply IH; exact H].
Qed.

Lemma all_conflicts_cons_nil name1 net1 rest :
  all_conflicts ((name1, net1) :: rest) = [] <->
  Forall (fun b => overlaps net1 (snd b) = false) rest /\ all_conflicts rest = [].
Proof.
  cbn [all_conflicts]. rewrite <- conflicts_with_nil_iff. split.
  - intros H. apply app_eq_nil in H. exact H.
  - intros [H1 H2]. rewrite H1, H2. reflexivity.
Qed.

Lemma all_conflicts_perm l l' :
  Permutation l l' -> all_conflicts l = [] -> all_conflicts l' = [].
Proof.
  induction 1 as [| [n net] l l' Hp IH | [n1 net1] [n2 net2] l | l l' l'' _ IH1 _ IH2].
  - trivial.
  - rewrite !all_conflicts_cons_nil. intros [Hf Hc].
    split; [|apply IH; exact Hc].
    eapply Permutation_Forall; eassumption.
  - rewrite !all_conflicts_cons_nil. intros (Hf1 & Hf2 & Hc).
    inversion Hf1 as [|? ? H12 Hf1']; subst. cbn [snd] in H12.
    repeat split; try assumption.
    constructor; [|exact Hf2].
    cbn [snd]. rewrite overlaps_comm. exact H12.
  - intros H. apply IH2, IH1, H.
Qed.

(** X9.  Whether the overlap check passes does not depend on the order
    in which the template lists its subnets: for labelled CIDR strings
    that all parse, [validate_cidr_ranges] returns the same boolean on
    every permutation of the entries (which conflict it reports may
    differ). *)
Theorem overlap_check_order_independent (entries entries' : list (string * string)) :
  (forall e, In e entries -> exists n, IPv4Network_init (PyStr (snd e)) = Ok n) ->
  Permutation entries entries' ->
  outcome (validate_cidr_ranges (template_of entries)) =
  outcome (validate_cidr_ranges (template_of entries')).
Proof.
  intros Hparse Hperm.
  destruct (parsed_as_exists entries Hparse) as [nets Hnets].
  destruct (Permutation_Forall2 Hperm Hnets) as (nets' & Hp' & Hnets').
  rewrite (validate_outcome _ _ Hnets), (validate_outcome _ _ Hnets').
  destruct (all_conflicts nets) as [|c cs] eqn:E;
    destruct (all_conflicts nets') as [|c' cs'] eqn:E'; try reflexivity.
  - rewrite (all_conflicts_perm _ _ Hp' E) in E'. discriminate.
  - rewrite (all_conflicts_perm _ _ (Permutation_sym Hp') E') in E. discriminate.
Qed.

Lemma overlap_check_order_independent_witness :
  (forall e, In e adjacent_entries ->
     exists n, IPv4Network_init (PyStr (snd e)) = Ok n) /\
  Permutation adjacent_entries (List.rev adjacent_entries) /\
  outcome (validate_cidr_ranges (template_of adjacent_entries)) =
  outcome (validate_cidr_ranges (template_of (List.rev adjacent_entries))).
Proof.
  split; [exact adjacent_entries_parse|].
  split; [apply Permutation_rev|].
  apply overlap_check_order_independent.
  - exact adjacent_entries_parse.
  - apply Permutation_rev.
Defined.

(** ** Text that the constructor accepts *)

Lemma aligned_keeps_mask (ip n : Z) :
  0 <= ip < 2 ^ 32 -> 0 <= n <= 32 ->
  Z.land ip (Z.ones (32 - n)) = 0 ->
  (Z.land ip (_ip_int_from_prefix n) =? ip) = true.
Proof.
  intros Hip Hn Hz.
  rewrite netmask_value by exact Hn.
  rewrite land_high_mask by lia.
  rewrite Z.land_ones in Hz by lia.
  apply Z.eqb_eq. lia.
Qed.

Lemma canonical_text_parses (a b c d n : Z) :
  octet_ok a -> octet_ok b -> octet_ok c -> octet_ok d ->
  0 <= n <= 32 ->
  Z.land (ip_of_octets a b c d) (Z.ones (32 - n)) = 0 ->
  IPv4Network_init (PyStr (cidr_text a b c d n)) =
  Ok (mkIPv4Network (ip_of_octets a b c d) (_ip_int_from_prefix n) n).
Proof.
  intros Ha Hb Hc Hd Hn Hz.
  cbn [IPv4Network_init]. unfold IPv4Network_of_str, _split_optional_netmask.
  rewrite cidr_text_split. cbn [List.length Nat.ltb Nat.leb rbind].
  unfold IPv4Address_of_str.
  pose proof (addr_no_slash a b c d) as Hns. unfold no_char in Hns.
  apply negb_true_iff in Hns. rewrite Hns.
  destruct (ip_int_from_address_text a b c d) as [Hgood _].
  rewrite Hgood by tauto.
  unfold finish_network, _make_netmask, rbind.
  rewrite prefix_string_in_range by lia. cbn [fst snd].
  rewrite aligned_keeps_mask;
    [reflexivity | apply ip_of_octets_bounds; assumption | lia | exact Hz].
Qed.

(** X10.  For decimal numbers [a], [b], [c], [d], [n], the constructor
    accepts the text "a.b.c.d/n" if and only if it is not malformed (all
    octets in [0, 255], prefix length in [0, 32], no host bit set), and
    then yields the network with that address, that prefix length and the
    netmask of the prefix length. *)
Theorem constructor_accepts_exactly_canonical (a b c d n : Z) :
  ((exists network, IPv4Network_init (PyStr (cidr_text a b c d n)) = Ok network)
   <-> ~ malformed a b c d n) /\
  (~ malformed a b c d n ->
   IPv4Network_init (PyStr (cidr_text a b c d n)) =
   Ok (mkIPv4Network (ip_of_octets a b c d) (_ip_int_from_prefix n) n)).
Proof.
  assert (Hparse : ~ malformed a b c d n ->
            IPv4Network_init (PyStr (cidr_text a b c d n)) =
            Ok (mkIPv4Network (ip_of_octets a b c d) (_ip_int_from_prefix n) n)).
  { intros Hok. unfold malformed, host_bits_set in Hok.
    destruct (octet_ok_dec a) as [Ha|Ha]; [|exfalso; apply Hok; left; tauto].
    destruct (octet_ok_dec b) as [Hb|Hb]; [|exfalso; apply Hok; left; tauto].
    destruct (octet_ok_dec c) as [Hc|Hc]; [|exfalso; apply Hok; left; tauto].
    destruct (octet_ok_dec d) as [Hd|Hd]; [|exfalso; apply Hok; left; tauto].
    assert (Hn : 0 <= n <= 32).
    { destruct (Z_le_dec 0 n); [destruct (Z_le_dec n 32); [lia|]|];
        exfalso; apply Hok; right; left; lia. }
    destruct (Z.eq_dec (Z.land (ip_of_octets a b c d) (Z.ones (32 - n))) 0)
      as [Hz|Hz]; [|exfalso; apply Hok; right; right; exact Hz].
    apply canonical_text_parses; assumption. }
  split; [|exact Hparse].
  split.
  - intros [network Hn] Hbad.
    destruct (malformed_text_raises a b c d n Hbad) as [e He]. congruence.
  - intros Hok. eexists. apply Hparse. exact Hok.
Qed.

Lemma constructor_accepts_exactly_canonical_witness :
  ~ malformed 10 0 4 64 26 /\
  IPv4Network_init (PyStr (cidr_text 10 0 4 64 26)) =
  Ok (mkIPv4Network (ip_of_octets 10 0 4 64) (_ip_int_from_prefix 26) 26).
Proof.
  assert (H : ~ malformed 10 0 4 64 26).
  { unfold malformed, host_bits_set, octet_ok.
    intros [H | [H | H]]; [lia | lia | apply H; vm_compute; reflexivity]. }
  split; [exact H|].
  apply (proj2 (constructor_accepts_exactly_canonical 10 0 4 64 26)). exact H.
Defined.

Lemma to_bytes4_octets (ip : Z) :
  0 <= ip < 2 ^ 32 ->
  Forall octet_ok (to_bytes4 ip) /\
  int_from_bytes_big (to_bytes4 ip) = ip.
Proof.
  intros Hip. unfold to_bytes4, octet_ok, int_from_bytes_big.
  change (2 ^ 32) with 4294967296 in Hip.
  change (2 ^ 24) with 16777216. change (2 ^ 16) with 65536.
  change (2 ^ 8) with 256.
  cbn [fold_left].
  split.
  - repeat constructor; try (apply Z.mod_pos_bound; lia);
      pose proof (Z.mod_pos_bound (ip / 16777216) 256);
      pose proof (Z.mod_pos_bound (ip / 65536) 256);
      pose proof (Z.mod_pos_bound (ip / 256) 256);
      pose proof (Z.mod_pos_bound ip 256); lia.
  - Z.div_mod_to_equations. lia.
Qed.

Lemma wf_text_round_trip (net : IPv4Network) :
  wf_network net ->
  IPv4Network_init (PyStr (IPv4Network_str net)) = Ok net.
Proof.
  intros Hwf.
  pose proof (wf_address net Hwf) as Ha.
  unfold _ALL_ONES, IPV4LENGTH in Ha.
  assert (Hip : 0 <= network_address net < 2 ^ 32) by lia.
  destruct (to_bytes4_octets _ Hip) as [Hoct Hval].
  unfold to_bytes4 in Hoct, Hval.
  inversion Hoct as [|? ? H1 Hoct1]; subst.
  inversion Hoct1 as [|? ? H2 Hoct2]; subst.
  inversion Hoct2 as [|? ? H3 Hoct3]; subst.
  inversion Hoct3 as [|? ? H4 _]; subst.
  change (IPv4Network_str net) with
    (cidr_text ((network_address net / 2 ^ 24) mod 256)
               ((network_address net / 2 ^ 16) mod 256)
               ((network_address net / 2 ^ 8) mod 256)
               (network_address net mod 256) (_prefixlen net)).
  rewrite canonical_text_parses; try assumption.
  - unfold ip_of_octets. rewrite Hval, <- (wf_netmask net Hwf).
    destruct net; reflexivity.
  - exact (wf_prefix net Hwf).
  - unfold ip_of_octets. rewrite Hval.
    pose proof (address_aligned net Hwf) as Hal.
    pose proof (host_bits_bounds net Hwf) as Hk.
    unfold host_bits in *.
    rewrite Z.land_ones by lia. exact Hal.
Qed.

(** X11.  Printing and parsing round-trip: for every network that the
    constructor produces, from any value, the text that an overlap report
    shows for it ([str(net)], "a.b.c.d/n") is accepted by the constructor
    and gives the same network back. *)
Theorem network_text_round_trip (v : pyval) (net : IPv4Network) :
  IPv4Network_init v = Ok net ->
  IPv4Network_init (PyStr (IPv4Network_str net)) = Ok net.
Proof.
  intros H. apply wf_text_round_trip. exact (IPv4Network_init_wf v net H).
Qed.

Lemma network_text_round_trip_witness :
  IPv4Network_init (PyStr "10.0.0.64/255.255.255.192")
  = Ok (mkIPv4Network 167772224 4294967232 26) /\
  IPv4Network_str (mkIPv4Network 167772224 4294967232 26) = "10.0.0.64/26" /\
  IPv4Network_init
    (PyStr (IPv4Network_str (mkIPv4Network 167772224 4294967232 26)))
  = Ok (mkIPv4Network 167772224 4294967232 26).
Proof.
  assert (H : IPv4Network_init (PyStr "10.0.0.64/255.255.255.192")
              = Ok (mkIPv4Network 167772224 4294967232 26))
    by (vm_compute; reflexivity).
  split; [exact H|]. split; [reflexivity|].
  exact (network_text_round_trip _ _ H).
Defined.

(** ** Templates that are not what the tests expect *)

Lemma run_fails_when_vpc_test_fails template_path template :
  passes template (structure_case "test_vpc_configuration" test_vpc_configuration)
  = false ->
  snd (run_all_tests template_path template) = false.
Proof.
  intros H. unfold run_all_tests. rewrite tests_loop_closed. cbn [snd andb].
  unfold tests. cbn [forallb]. rewrite H. apply andb_false_r.
Qed.

(** X12.  A template file that does not load to a mapping (an empty file
    loads to the null value; a top-level sequence or scalar is possible
    too) fails the run: each of the nine tests after
    [test_template_structure] raises [AttributeError] at its first
    [template.get], [run_all_tests] returns [False] and the script exits
    with status 1. *)
Theorem non_mapping_template_fails (template : pyval) :
  (forall d, template <> PyDict d) ->
  (forall tc, In tc (tl tests) ->
     snd (snd tc template) = Failed (Exn AttributeError)) /\
  (forall template_path, snd (run_all_tests template_path template) = false) /\
  exit_status template = 1.
Proof.
  intros Hnot.
  assert (Hall : forall tc, In tc (tl tests) ->
                   snd (snd tc template) = Failed (Exn AttributeError)).
  { intros tc Hin. unfold tests in Hin. cbn [tl In] in Hin.
    destruct template as [ | | | | | d]; try (exfalso; exact (Hnot d eq_refl));
      repeat (destruct Hin as [<- | Hin]; [reflexivity|]); destruct Hin. }
  assert (Hrun : forall template_path,
                   snd (run_all_tests template_path template) = false).
  { intros template_path. apply run_fails_when_vpc_test_fails.
    unfold passes.
    rewrite (Hall (structure_case "test_vpc_configuration" test_vpc_configuration));
      [reflexivity|].
    unfold tests. cbn [tl In]. left. reflexivity. }
  split; [exact Hall|]. split; [exact Hrun|].
  unfold exit_status. rewrite Hrun. reflexivity.
Qed.

Lemma non_mapping_template_fails_witness :
  (forall d, PyNone <> PyDict d) /\ exit_status PyNone = 1.
Proof.
  assert (H : forall d, PyNone <> PyDict d) by (intros d; discriminate).
  split; [exact H|].
  exact (proj2 (proj2 (non_mapping_template_fails PyNone H))).
Defined.

Lemma gathered_none rs :
  (forall item, In item rs -> considered (snd item) = false) ->
  gathered rs = [].
Proof.
  induction rs as [|[name resource] rest IH]; intros H; cbn [gathered].
  - reflexivity.
  - pose proof (H (name, resource) (or_introl eq_refl)) as Hc.
    cbn [snd] in Hc. rewrite Hc.
    apply IH. intros item Hin. apply H. right. exact Hin.
Qed.

Lemma validate_no_subnets t rs :
  match dict_get t "Resources" with
  | Some v => Ok v
  | None => Ok (PyDict [])
  end = Ok (PyDict rs) ->
  resources_shaped rs ->
  (forall item, In item rs -> considered (snd item) = false) ->
  validate_cidr_ranges (PyDict t) =
  ([Printed MsgValidating; Printed MsgValid], Ok true).
Proof.
  intros H Hs Hnone. unfold validate_cidr_ranges.
  cbn [py_get]. rewrite H. cbn [print emit bind].
  rewrite bind_lift_ok. cbn [py_items]. rewrite bind_lift_ok.
  rewrite (collect_loop_gathered rs Hs).
  - rewrite (gathered_none rs Hnone). reflexivity.
  - intros n r Hin Hc. specialize (Hnone (n, r) Hin). cbn [snd] in Hnone.
    congruence.
Qed.

(** X13.  With nothing to compare the overlap check passes: when the
    template has no [Resources] section (the default [{}] is used), or when
    none of its resources (all in mapping shape) is a subnet with a
    [CidrBlock], [validate_cidr_ranges] prints its two status lines and
    returns [True].  Without a [Resources] section the structure tests
    still fail: [test_vpc_configuration] reports that VPC1 is not found,
    and the run returns [False]. *)
Theorem template_without_subnets (t : list (string * pyval)) :
  (dict_get t "Resources" = None ->
   validate_cidr_ranges (PyDict t) =
     ([Printed MsgValidating; Printed MsgValid], Ok true) /\
   test_vpc_configuration (PyDict t) = ([RVpcStart; RVpc1NotFound], Done false) /\
   snd (test_template_structure (PyDict t)) = Done false /\
   forall template_path, snd (run_all_tests template_path (PyDict t)) = false) /\
  (forall rs,
     dict_get t "Resources" = Some (PyDict rs) ->
     resources_shaped rs ->
     (forall item, In item rs -> considered (snd item) = false) ->
     validate_cidr_ranges (PyDict t) =
       ([Printed MsgValidating; Printed MsgValid], Ok true)).
Proof.
  split.
  - intros H.
    assert (Hvpc : test_vpc_configuration (PyDict t)
                   = ([RVpcStart; RVpc1NotFound], Done false)).
    { unfold test_vpc_configuration, get_section. cbn [py_get]. rewrite H.
      reflexivity. }
    split; [|split; [exact Hvpc|split]].
    + apply (validate_no_subnets t []).
      * rewrite H. reflexivity.
      * constructor.
      * intros item [].
    + rewrite test_template_structure_dict. cbn [snd].
      destruct (forallb (has_key t) required_sections) eqn:E; [|reflexivity].
      rewrite forallb_forall in E.
      assert (Hk : has_key t "Resources" = true).
      { apply E. unfold required_sections. cbn [In]. tauto. }
      unfold has_key in Hk. rewrite H in Hk. discriminate.
    + intros template_path. apply run_fails_when_vpc_test_fails.
      unfold passes, structure_case. cbn [fst snd]. rewrite Hvpc. reflexivity.
  - intros rs H Hs Hnone. apply (validate_no_subnets t rs); try assumption.
    rewrite H. reflexivity.
Qed.

Lemma template_without_subnets_witness :
  dict_get [("Description", PyStr "empty")] "Resources" = None /\
  validate_cidr_ranges (PyDict [("Description", PyStr "empty")]) =
    ([Printed MsgValidating; Printed MsgValid], Ok true) /\
  test_vpc_configuration (PyDict [("Description", PyStr "empty")]) =
    ([RVpcStart; RVpc1NotFound], Done false).
Proof.
  split; [reflexivity|].
  destruct (proj1 (template_without_subnets [("Description", PyStr "empty")])
              eq_refl) as (H1 & H2 & _).
  split; [exact H1 | exact H2].
Defined.

(** ** The ICMP check of the security groups *)

Lemma any_icmp_mappings rules :
  Forall is_mapping rules ->
  any_icmp rules = Done (existsb is_icmp_rule rules).
Proof.
  induction 1 as [|rule rest [d ->] Hrest IH]; cbn [any_icmp existsb].
  - reflexivity.
  - cbn [py_get is_icmp_rule].
    destruct (dict_get d "IpProtocol") as [v|].
    + destruct (py_eq_str v "icmp"); [reflexivity | exact IH].
    + cbn [py_eq_str orb]. exact IH.
Qed.

Lemma any_icmp_stops pre rule post :
  Forall is_mapping pre -> is_icmp_rule rule = true ->
  any_icmp (pre ++ rule :: post) = Done true.
Proof.
  intros Hpre Hrule.
  induction Hpre as [|r rest [d ->] Hrest IH]; cbn [Datatypes.app any_icmp].
  - destruct rule as [ | | | | | d]; try discriminate.
    cbn [py_get is_icmp_rule] in *.
    destruct (dict_get d "IpProtocol") as [v|]; [|discriminate].
    rewrite Hrule. reflexivity.
  - cbn [py_get].
    destruct (dict_get d "IpProtocol") as [v|].
    + destruct (py_eq_str v "icmp"); [reflexivity | exact IH].
    + cbn [py_eq_str]. exact IH.
Qed.

Lemma has_icmp_shaped rs name rules :
  resources_shaped rs ->
  ingress_of rs name = PyList rules ->
  has_icmp (PyDict rs) name = tlift (any_icmp rules).
Proof.
  intros Hs Hin. unfold has_icmp, ingress_of in *. cbn [py_get].
  destruct (dict_get rs name) as [sg|] eqn:E.
  - pose proof (shaped_entry _ _ _ Hs E) as Hsg.
    destruct sg as [ | | | | | d]; try discriminate.
    cbn [resource_shaped] in Hsg.
    cbn [of_result]. rewrite tbind_done. cbn [py_get].
    destruct (dict_get d "Properties") as [[ | | | | | p]|]; try discriminate;
      cbn [of_result]; rewrite tbind_done; cbn [py_get dict_get].
    + destruct (dict_get p "SecurityGroupIngress") as [v|];
        cbn [of_result]; rewrite tbind_done;
        inversion Hin; subst; cbn [py_iter]; rewrite ?tbind_done; reflexivity.
    + cbn [of_result]. rewrite tbind_done.
      inversion Hin; subst. cbn [py_iter]. rewrite ?tbind_done. reflexivity.
  - cbn [of_result]. rewrite tbind_done. cbn [py_get dict_get of_result].
    rewrite tbind_done. cbn [py_get dict_get of_result]. rewrite tbind_done.
    inversion Hin; subst.
    cbn [py_iter]. rewrite ?tbind_done. reflexivity.
Qed.

(** X14.  On a template whose [Resources] is a mapping of resources in
    mapping shape, where the ingress rules of the two EC2 security groups
    are lists of mappings, [test_security_groups] returns [True] exactly
    when the four security groups exist and each of the two EC2 groups has
    a rule with [IpProtocol] 'icmp' (a group without rules has none).
    The search for that rule stops at the first match: rules after it are
    never inspected, whatever they are. *)
Theorem security_groups_need_icmp (t rs : list (string * pyval))
    (rules1 rules2 : list pyval) :
  dict_get t "Resources" = Some (PyDict rs) ->
  resources_shaped rs ->
  ingress_of rs "VPC1EC2SecurityGroup" = PyList rules1 ->
  ingress_of rs "VPC2EC2SecurityGroup" = PyList rules2 ->
  Forall is_mapping rules1 -> Forall is_mapping rules2 ->
  snd (test_security_groups (PyDict t)) =
    Done (forallb (has_key rs) required_sgs
          && existsb is_icmp_rule rules1
          && existsb is_icmp_rule rules2)%bool
  /\
  (forall pre rule post,
     Forall is_mapping pre -> is_icmp_rule rule = true ->
     any_icmp (pre ++ rule :: post) = Done true).
Proof.
  intros H Hs H1 H2 Hm1 Hm2. split; [|exact any_icmp_stops].
  unfold test_security_groups.
  rewrite snd_tbind_say, (get_section_present _ _ _ H), tbind_done.
  rewrite snd_require_then.
  destruct (forallb (has_key rs) required_sgs); cbn [andb]; [|reflexivity].
  rewrite (has_icmp_shaped rs _ rules1 Hs H1), (any_icmp_mappings _ Hm1), tbind_done.
  rewrite snd_guard.
  destruct (existsb is_icmp_rule rules1); cbn [andb]; [|reflexivity].
  rewrite (has_icmp_shaped rs _ rules2 Hs H2), (any_icmp_mappings _ Hm2), tbind_done.
  rewrite snd_guard.
  destruct (existsb is_icmp_rule rules2); reflexivity.
Qed.

Lemma security_groups_need_icmp_witness :
  snd (test_security_groups reference_template) =
    Done (forallb (has_key reference_resources) required_sgs
          && existsb is_icmp_rule
               [PyDict [("IpProtocol", PyStr "icmp"); ("CidrIp", PyStr "10.0.0.0/8")]]
          && existsb is_icmp_rule
               [PyDict [("IpProtocol", PyStr "icmp"); ("CidrIp", PyStr "10.0.0.0/8")]])%bool.
Proof.
  apply (security_groups_need_icmp _ reference_resources).
  - reflexivity.
  - exact reference_resources_shaped.
  - reflexivity.
  - reflexivity.
  - repeat constructor. eexists. reflexivity.
  - repeat constructor. eexists. reflexivity.
Defined.
